(** * cgreen: the test runner (src/runner.c) and the breadcrumb stack

    A shallow embedding of the execution core of cgreen.  The runner is
    C code that is also compiled as C++ (the [__cplusplus] branches add
    the try/catch wrappers); it is embedded here in its C++ reading, as a
    program in a small monad with a log of the calls it makes.

    Everything the runner calls but does not define (the reporter, the
    mock bookkeeping, the process isolation layer, libc) is an interface
    of the development: a type class whose fields are the foreign
    operations. *)

From Stdlib Require Import ZArith List String Ascii Bool Lia DecimalString.
Import ListNotations.

Local Open Scope string_scope.
Local Open Scope list_scope.
Local Open Scope Z_scope.

(* ================================================================== *)
(** ** Breadcrumb *)

Module Breadcrumb.

(** Modelled from the spec: breadcrumb.c is not part of the sources at
    hand, only its tests are.  The spec describes the breadcrumb as an
    ordered sequence of name strings, LIFO; here the oldest entry comes
    first and the top of the stack is the last element. *)
Definition Breadcrumb := list string.

(** Modelled from the spec: a breadcrumb is created fresh, with no
    entries. *)
Definition create_breadcrumb : Breadcrumb := [].

(** Modelled from the spec: [push(name)] appends [name] as the new top;
    unconditional, no capacity limit. *)
Definition push_breadcrumb (b : Breadcrumb) (name : string) : Breadcrumb :=
  b ++ [name].

(** Modelled from the spec: [pop()] removes the current top.  The spec
    leaves popping an empty stack open; the choice made here is the
    no-op. *)
Definition pop_breadcrumb (b : Breadcrumb) : Breadcrumb :=
  removelast b.

(** Modelled from the spec: [current()] returns the top label, or an
    explicit empty sentinel (the tests compare it with NULL) when the
    stack has no entries. *)
Fixpoint get_current_from_breadcrumb (b : Breadcrumb) : option string :=
  match b with
  | [] => None
  | [top] => Some top
  | _ :: rest => get_current_from_breadcrumb rest
  end.

(** Modelled from the spec: [walk(visitor, memo)] invokes
    [visitor(label, memo)] once for every entry currently on the stack,
    oldest-pushed first.  The visitor is C code acting on what [memo]
    points to; it is a transformer of that memo here. *)
Fixpoint walk_breadcrumb {Memo : Type} (b : Breadcrumb)
         (walker : string -> Memo -> Memo) (memo : Memo) : Memo :=
  match b with
  | [] => memo
  | name :: rest => walk_breadcrumb rest walker (walker name memo)
  end.

(** The visitor of the tests that counts its calls ([called_once],
    [called_never]) and records the names it was given. *)
Definition recording_walker (name : string) (seen : list string) : list string :=
  seen ++ [name].

End Breadcrumb.

(* ================================================================== *)
(** ** Data model of the runner *)

(** What a C++ [throw] can carry, as far as the handlers of runner.c
    tell the shapes apart.  The string is what [what()], [c_str()] or the
    pointer itself yields when printed with [%s]. *)
Inductive thrown : Type :=
| std_exception_object (what : string)      (* catch (std::exception&)  *)
| std_exception_pointer (what : string)     (* catch (std::exception* ) *)
| std_string_object (c_str : string)        (* catch (std::string&)     *)
| std_string_pointer (c_str : string)       (* catch (std::string* )    *)
| c_string (chars : string)                 (* catch (const char* )     *)
| other_object (tag : nat).                 (* no handler matches       *)

(** The three phases of a test, as the messages of runner.c name them. *)
Inductive phase : Type := Setup | Test | Teardown.

Definition phase_label (ph : phase) : string :=
  match ph with
  | Setup => "setup"
  | Test => "test"
  | Teardown => "teardown"
  end.

Definition EXIT_SUCCESS : Z := 0.
Definition EXIT_FAILURE : Z := 1.

Definition CGREEN_PER_TEST_TIMEOUT_ENVIRONMENT_VARIABLE : string :=
  "CGREEN_PER_TEST_TIMEOUT".

Definition newline : string := String (ascii_of_nat 10) EmptyString.

(** [%d] of printf. *)
Definition decimal (z : Z) : string := NilZero.string_of_int (Z.to_int z).

(** [snprintf(buffer, size, ...)] writes at most [size - 1] characters of
    the formatted text (and the terminating NUL). *)
Definition snprintf (size : nat) (formatted : string) : string :=
  substring 0 (Nat.pred size) formatted.

(** [char message[255]] of [run], [run_setup_for] and [run_teardown_for]. *)
Definition sizeof_message : nat := 255.

Section Model.

(** The memory of the process (everything foreign code can read and
    write: the reporter's counters, the environment, the mocks). *)
Context {world : Type}.

(** How a call into foreign code ends. *)
Inductive answer : Type :=
| returns (w : world)
| throws (e : thrown) (w : world)
| exits (status : Z) (w : world).

Definition code : Type := world -> answer.

(** A pointer to a function [void f(void)].  The runner only ever
    compares such a pointer with NULL and with [&do_nothing]. *)
Inductive funptr : Type :=
| NULL
| do_nothing
| function (body : code).

Definition is_NULL (f : funptr) : bool :=
  match f with NULL => true | _ => false end.

Definition is_do_nothing (f : funptr) : bool :=
  match f with do_nothing => true | _ => false end.

Record CgreenContext : Type := {
  context_setup : funptr;
  context_teardown : funptr
}.

Record CgreenTest : Type := {
  test_name : string;
  test_filename : string;
  test_line : Z;
  test_context : CgreenContext;   (* spec->context, dereferenced unconditionally *)
  test_run : funptr
}.

(** [TestSuite] and its array [tests] of [UnitTest]; an entry is tagged
    [test_function] or [test_suite] and carries its own [name]. *)
Inductive TestSuite : Type :=
| Suite (name filename : string) (line : Z) (setup teardown : funptr)
        (tests : list UnitTest)
with UnitTest : Type :=
| test_function (name : string) (test : CgreenTest)
| test_suite (name : string) (suite : TestSuite).

Definition suite_name (s : TestSuite) : string :=
  match s with Suite n _ _ _ _ _ => n end.
Definition suite_filename (s : TestSuite) : string :=
  match s with Suite _ f _ _ _ _ => f end.
Definition suite_line (s : TestSuite) : Z :=
  match s with Suite _ _ l _ _ _ => l end.
Definition suite_setup (s : TestSuite) : funptr :=
  match s with Suite _ _ _ f _ _ => f end.
Definition suite_teardown (s : TestSuite) : funptr :=
  match s with Suite _ _ _ _ f _ => f end.
Definition suite_tests (s : TestSuite) : list UnitTest :=
  match s with Suite _ _ _ _ _ ts => ts end.

(** The reporter: its callbacks, and its two counters as they are read
    from memory. *)
Record TestReporter : Type := {
  start_suite : string -> Z -> world -> world;
  start_test : string -> world -> world;
  show_fail : string -> Z -> string -> world -> world;
  finish_test : string -> Z -> world -> world;
  finish_suite : string -> Z -> world -> world;
  failures : world -> Z;
  exceptions : world -> Z
}.

(** Where a hook call of the runner sits. *)
Inductive hook_site : Type :=
| around_suite (nested : TestSuite)   (* run_every_test, run_named_test *)
| for_test (spec : CgreenTest).       (* run_the_test_code *)

(** The calls the runner makes, in the order it makes them. *)
Inductive event : Type :=
| ev_printf (text : string)
| ev_setup_reporting
| ev_child_check (suite : TestSuite)
| ev_start_suite (suite : TestSuite) (count : Z)
| ev_finish_suite (suite : TestSuite)
| ev_start_test (test : CgreenTest)
| ev_finish_test (test : CgreenTest)
| ev_completion
| ev_show_fail (filename : string) (line : Z) (message : string)
| ev_isolated (suite : TestSuite) (test : CgreenTest)
| ev_suite_hook (suite : TestSuite) (ph : phase) (site : hook_site)
| ev_context_hook (spec : CgreenTest) (ph : phase)
| ev_body (spec : CgreenTest)
| ev_significant_figures (figures : Z)
| ev_clear_mocks
| ev_tally_mocks
| ev_die_in (seconds : Z).

(** The foreign operations runner.c relies on. *)
Class Platform : Type := {
  (* libc *)
  getenv : string -> world -> option string;
  atoi : string -> Z;
  (* cgreen/reporter.h *)
  reporting_setup : TestReporter -> world -> world;
  completion_notification : TestReporter -> world -> world;
  (* cgreen/internal/runner_platform.h *)
  specified_test_if_child : TestSuite -> TestReporter -> code;
  test_in_its_own_process : TestSuite -> CgreenTest -> TestReporter -> code;
  alarm_in : Z -> world -> world;
  (* cgreen/assertions.h, cgreen/mocks.h *)
  significant_figures : Z -> world -> world;
  mocks_cleared : world -> world;
  mocks_tallied : TestReporter -> world -> world
}.

(** Besides the memory, the reporter that reporter.c keeps for
    [get_test_reporter]. *)
Record state : Type := {
  mem : world;
  context_reporter : option TestReporter
}.

Definition with_mem (st : state) (w : world) : state :=
  {| mem := w; context_reporter := context_reporter st |}.

(** How a piece of the runner ends: it returns, a C++ exception leaves
    it, the process exits, or the behaviour is undefined (a call
    through a null pointer). *)
Inductive result (A : Type) : Type :=
| Ret (a : A) (st : state)
| Thrown (e : thrown) (st : state)
| Exited (status : Z) (st : state)
| Crashed.

Arguments Ret {A} a st.
Arguments Thrown {A} e st.
Arguments Exited {A} status st.
Arguments Crashed {A}.

Definition M (A : Type) : Type := state -> result A * list event.

Definition ret {A : Type} (a : A) : M A := fun st => (Ret a st, []).

Definition bind {A B : Type} (m : M A) (k : A -> M B) : M B :=
  fun st =>
    match m st with
    | (Ret a st', log) => let (r, log') := k a st' in (r, log ++ log')
    | (Thrown e st', log) => (Thrown e st', log)
    | (Exited status st', log) => (Exited status st', log)
    | (Crashed, log) => (Crashed, log)
    end.

Definition tell (e : event) : M unit := fun st => (Ret tt st, [e]).

(** A foreign operation that always returns. *)
Definition effect (f : world -> world) : M unit :=
  fun st => (Ret tt (with_mem st (f (mem st))), []).

(** A foreign operation that may also throw or exit. *)
Definition foreign (c : code) : M unit :=
  fun st =>
    match c (mem st) with
    | returns w => (Ret tt (with_mem st w), [])
    | throws e w => (Thrown e (with_mem st w), [])
    | exits status w => (Exited status (with_mem st w), [])
    end.

(** [( *f )()]. *)
Definition call (f : funptr) : M unit :=
  match f with
  | NULL => fun _ => (Crashed, [])
  | do_nothing => ret tt
  | function body => foreign body
  end.

End Model.

Arguments answer : clear implicits.
Arguments code : clear implicits.
Arguments funptr : clear implicits.
Arguments CgreenContext : clear implicits.
Arguments CgreenTest : clear implicits.
Arguments TestSuite : clear implicits.
Arguments UnitTest : clear implicits.
Arguments TestReporter : clear implicits.
Arguments hook_site : clear implicits.
Arguments event : clear implicits.
Arguments Platform : clear implicits.
Arguments state : clear implicits.
Arguments result : clear implicits.
Arguments M : clear implicits.
Arguments Ret {world A} a st.
Arguments Thrown {world A} e st.
Arguments Exited {world A} status st.
Arguments Crashed {world A}.

Declare Scope runner_scope.
Delimit Scope runner_scope with runner.
Notation "x <- m ;; k" := (bind m (fun x => k))
  (at level 61, m at next level, right associativity) : runner_scope.
Notation "m ;; k" := (bind m (fun _ => k))
  (at level 61, right associativity) : runner_scope.

(* ================================================================== *)
(** ** The runner (src/runner.c) *)

Section Runner.

Context {world : Type} {platform : Platform world}.

Local Open Scope runner_scope.

(** A call of a foreign operation that always returns, with its entry
    in the log. *)
Definition external (e : event world) (f : world -> world) : M world unit :=
  tell e ;; effect f.

(** *** What runner.c takes from suite.c and reporter.c *)

(** Modelled from the spec: suite.c is not part of the sources at hand.
    [has_setup]: the suite defines a non-default setup, the default
    being the canonical no-op. *)
Definition has_setup (suite : TestSuite world) : bool :=
  negb (is_do_nothing (suite_setup suite)).

(** Modelled from the spec: [count_tests] is the total test count in
    the subtree. *)
Fixpoint count_tests (suite : TestSuite world) : Z :=
  match suite with
  | Suite _ _ _ _ _ tests =>
      (fix count (entries : list (UnitTest world)) : Z :=
         match entries with
         | [] => 0
         | test_function _ _ :: rest => 1 + count rest
         | test_suite _ nested :: rest => count_tests nested + count rest
         end) tests
  end.

(** Modelled from the spec: [has_test] tells whether the target name is
    present somewhere in the subtree of the suite, as the name of a
    test entry. *)
Fixpoint has_test (suite : TestSuite world) (name : string) : bool :=
  match suite with
  | Suite _ _ _ _ _ tests =>
      (fix among (entries : list (UnitTest world)) : bool :=
         match entries with
         | [] => false
         | test_function entry_name _ :: rest =>
             String.eqb entry_name name || among rest
         | test_suite _ nested :: rest =>
             has_test nested name || among rest
         end) tests
  end.

(** Modelled from the spec: [setup_reporting] prepares the reporter for
    the run; from then on it is the reporter of the run, the one
    [get_test_reporter] hands out. *)
Definition setup_reporting (reporter : TestReporter world) : M world unit :=
  fun st =>
    (Ret tt {| mem := reporting_setup reporter (mem st);
               context_reporter := Some reporter |},
     [ev_setup_reporting]).

Definition send_reporter_completion_notification
           (reporter : TestReporter world) : M world unit :=
  external ev_completion (completion_notification reporter).

(** *** die and the per-test timeout *)

(** [die]: print the message, [exit(EXIT_FAILURE)]. *)
Definition die {A : Type} (message : string) : M world A :=
  fun st => (Exited EXIT_FAILURE st, [ev_printf message]).

Definition per_test_timeout_defined : M world bool :=
  fun st =>
    (Ret (match getenv CGREEN_PER_TEST_TIMEOUT_ENVIRONMENT_VARIABLE (mem st) with
          | Some _ => true
          | None => false
          end) st, []).

Definition per_test_timeout_value : M world Z :=
  defined <- per_test_timeout_defined ;;
  (if negb defined
   then die ("attempt to fetch undefined value for "
               ++ CGREEN_PER_TEST_TIMEOUT_ENVIRONMENT_VARIABLE ++ newline)%string
   else ret tt) ;;
  fun st =>
    match getenv CGREEN_PER_TEST_TIMEOUT_ENVIRONMENT_VARIABLE (mem st) with
    | Some timeout_string => (Ret (atoi timeout_string) st, [])
    | None => (Crashed, [])                       (* atoi(NULL) *)
    end.

Definition validate_per_test_timeout_value : M world unit :=
  timeout <- per_test_timeout_value ;;
  if timeout <=? 0
  then die ("invalid value for "
              ++ CGREEN_PER_TEST_TIMEOUT_ENVIRONMENT_VARIABLE
              ++ " environment variable: " ++ decimal timeout ++ newline)%string
  else ret tt.

(** *** The three wrappers with their handlers *)

(** The five catch clauses: which thrown objects a handler takes, and
    the text it prints with [%s]. *)
Definition caught (e : thrown) : option string :=
  match e with
  | std_exception_object what => Some what
  | std_exception_pointer what => Some what
  | std_string_object c_str => Some c_str
  | std_string_pointer c_str => Some c_str
  | c_string chars => Some chars
  | other_object _ => None
  end.

(** [snprintf(message, sizeof(message) - 1,
    "an exception was thrown during <phase>: [%s]", detail)]. *)
Definition exception_message (ph : phase) (detail : string) : string :=
  snprintf (Nat.pred sizeof_message)
           ("an exception was thrown during " ++ phase_label ph
              ++ ": [" ++ detail ++ "]")%string.

(** [try { body } catch ...] as the three wrappers have it: the
    reporter is fetched with [get_test_reporter()] before the [try];
    every handler formats the message and calls [reporter->show_fail]
    at the location of the test. *)
Definition try_catch (ph : phase) (spec : CgreenTest world)
           (body : M world unit) : M world unit :=
  fun st =>
    let reporter := context_reporter st in
    match body st with
    | (Thrown e st', log) =>
        match caught e with
        | Some detail =>
            let message := exception_message ph detail in
            match reporter with
            | Some reporter =>
                (Ret tt (with_mem st' (show_fail reporter (test_filename spec)
                                                 (test_line spec) message (mem st'))),
                 log ++ [ev_show_fail (test_filename spec) (test_line spec) message])
            | None => (Crashed, log)
            end
        | None => (Thrown e st', log)
        end
    | finished => finished
    end.

Definition run_setup_for (spec : CgreenTest world) : M world unit :=
  try_catch Setup spec
    (tell (ev_context_hook spec Setup) ;;
     call (context_setup (test_context spec))).

Definition run_teardown_for (spec : CgreenTest world) : M world unit :=
  try_catch Teardown spec
    (tell (ev_context_hook spec Teardown) ;;
     call (context_teardown (test_context spec))).

Definition run (spec : CgreenTest world) : M world unit :=
  try_catch Test spec
    (tell (ev_body spec) ;;
     call (test_run spec)).

(** *** The per-test sequence *)

(** Lines 244-248. *)
Definition arm_the_timeout : M world unit :=
  defined <- per_test_timeout_defined ;;
  if defined
  then validate_per_test_timeout_value ;;
       seconds <- per_test_timeout_value ;;
       external (ev_die_in seconds) (alarm_in seconds)
  else ret tt.

(** Lines 250-257. *)
Definition setup_step (suite : TestSuite world) (spec : CgreenTest world)
  : M world unit :=
  if has_setup suite
  then tell (ev_suite_hook suite Setup (for_test spec)) ;;
       call (suite_setup suite)
  else if negb (is_NULL (context_setup (test_context spec)))
       then run_setup_for spec
       else ret tt.

(** Lines 261-268. *)
Definition teardown_step (suite : TestSuite world) (spec : CgreenTest world)
  : M world unit :=
  if negb (is_do_nothing (suite_teardown suite))
  then tell (ev_suite_hook suite Teardown (for_test spec)) ;;
       call (suite_teardown suite)
  else if negb (is_NULL (context_teardown (test_context spec)))
       then run_teardown_for spec
       else ret tt.

Definition run_the_test_code (suite : TestSuite world) (spec : CgreenTest world)
           (reporter : TestReporter world) : M world unit :=
  external (ev_significant_figures 8) (significant_figures 8) ;;
  external ev_clear_mocks mocks_cleared ;;
  arm_the_timeout ;;
  setup_step suite spec ;;
  run spec ;;
  teardown_step suite spec ;;
  external ev_tally_mocks (mocks_tallied reporter).

Definition run_test_in_the_current_process
           (suite : TestSuite world) (test : CgreenTest world)
           (reporter : TestReporter world) : M world unit :=
  external (ev_start_test test) (start_test reporter (test_name test)) ;;
  run_the_test_code suite test reporter ;;
  send_reporter_completion_notification reporter ;;
  external (ev_finish_test test)
           (finish_test reporter (test_filename test) (test_line test)).

(** *** The two traversals *)

(** [for (i = 0; i < suite->size; i++) body(suite->tests[i])]. *)
Fixpoint for_each {A : Type} (body : A -> M world unit) (entries : list A)
  : M world unit :=
  match entries with
  | [] => ret tt
  | entry :: rest => body entry ;; for_each body rest
  end.

Fixpoint run_every_test (suite : TestSuite world) (reporter : TestReporter world)
         {struct suite} : M world unit :=
  match suite with
  | Suite _ _ _ _ _ tests =>
      tell (ev_child_check suite) ;;
      foreign (specified_test_if_child suite reporter) ;;
      external (ev_start_suite suite (count_tests suite))
               (start_suite reporter (suite_name suite) (count_tests suite)) ;;
      for_each
        (fun entry =>
           match entry with
           | test_function _ test =>
               tell (ev_isolated suite test) ;;
               foreign (test_in_its_own_process suite test reporter)
           | test_suite _ nested =>
               tell (ev_suite_hook suite Setup (around_suite nested)) ;;
               call (suite_setup suite) ;;
               run_every_test nested reporter ;;
               tell (ev_suite_hook suite Teardown (around_suite nested)) ;;
               call (suite_teardown suite)
           end)
        tests ;;
      send_reporter_completion_notification reporter ;;
      external (ev_finish_suite suite)
               (finish_suite reporter (suite_filename suite) (suite_line suite))
  end.

Fixpoint run_named_test (suite : TestSuite world) (name : string)
         (reporter : TestReporter world) {struct suite} : M world unit :=
  match suite with
  | Suite _ _ _ _ _ tests =>
      external (ev_start_suite suite (count_tests suite))
               (start_suite reporter (suite_name suite) (count_tests suite)) ;;
      for_each
        (fun entry =>
           match entry with
           | test_function entry_name test =>
               if String.eqb entry_name name      (* strcmp(...) == 0 *)
               then run_test_in_the_current_process suite test reporter
               else ret tt
           | test_suite _ nested =>
               if has_test nested name
               then tell (ev_suite_hook suite Setup (around_suite nested)) ;;
                    call (suite_setup suite) ;;
                    run_named_test nested name reporter ;;
                    tell (ev_suite_hook suite Teardown (around_suite nested)) ;;
                    call (suite_teardown suite)
               else ret tt
           end)
        tests ;;
      send_reporter_completion_notification reporter ;;
      external (ev_finish_suite suite)
               (finish_suite reporter (suite_filename suite) (suite_line suite))
  end.

(** *** The two entry points *)

Definition run_test_suite (suite : TestSuite world) (reporter : TestReporter world)
  : M world Z :=
  defined <- per_test_timeout_defined ;;
  (if defined then validate_per_test_timeout_value else ret tt) ;;
  setup_reporting reporter ;;
  run_every_test suite reporter ;;
  fun st =>
    let success := (failures reporter (mem st) =? 0)
                   && (exceptions reporter (mem st) =? 0) in
    (Ret (if success then EXIT_SUCCESS else EXIT_FAILURE) st, []).

Definition run_single_test (suite : TestSuite world) (name : string)
           (reporter : TestReporter world) : M world Z :=
  defined <- per_test_timeout_defined ;;
  (if defined then validate_per_test_timeout_value else ret tt) ;;
  setup_reporting reporter ;;
  run_named_test suite name reporter ;;
  fun st =>
    let success := (failures reporter (mem st) =? 0) in
    (Ret (if success then EXIT_SUCCESS else EXIT_FAILURE) st, []).

End Runner.

(* ================================================================== *)
(** ** Reading the log, and the rules of the specification *)

Section Observations.

Context {world : Type}.

(** The suites strictly below a suite, depth first. *)
Fixpoint subsuites (suite : TestSuite world) : list (TestSuite world) :=
  match suite with
  | Suite _ _ _ _ _ tests =>
      flat_map (fun entry =>
                  match entry with
                  | test_function _ _ => []
                  | test_suite _ nested => nested :: subsuites nested
                  end) tests
  end.

(** [nested] is an entry of [suite]. *)
Definition child_of (nested suite : TestSuite world) : Prop :=
  exists entry_name, In (test_suite entry_name nested) (suite_tests suite).

(** The specification's words for a named run: every test entry that
    carries the target name, in declared order, depth first. *)
Fixpoint all_matches (suite : TestSuite world) (name : string)
  : list (CgreenTest world) :=
  match suite with
  | Suite _ _ _ _ _ tests =>
      flat_map (fun entry =>
                  match entry with
                  | test_function entry_name test =>
                      if String.eqb entry_name name then [test] else []
                  | test_suite _ nested => all_matches nested name
                  end) tests
  end.

(** The part of the log that is about single tests. *)
Definition test_level (e : event world) : bool :=
  match e with
  | ev_start_test _ | ev_body _ | ev_finish_test _ => true
  | _ => false
  end.

(** A test reported as a test of its own: started, run, finished. *)
Definition reported_run (test : CgreenTest world) : list (event world) :=
  [ev_start_test test; ev_body test; ev_finish_test test].

(** Where the per-test sequence can take a hook from. *)
Inductive hook_source : Type := from_suite | from_context.

Definition phase_eqb (a b : phase) : bool :=
  match a, b with
  | Setup, Setup | Test, Test | Teardown, Teardown => true
  | _, _ => false
  end.

(** The hook calls of a phase that the per-test sequence logged. *)
Definition hook_call (ph : phase) (e : event world) : list hook_source :=
  match e with
  | ev_suite_hook _ ph' (for_test _) => if phase_eqb ph' ph then [from_suite] else []
  | ev_context_hook _ ph' => if phase_eqb ph' ph then [from_context] else []
  | _ => []
  end.

Definition hook_calls (ph : phase) (log : list (event world)) : list hook_source :=
  flat_map (hook_call ph) log.

(** The specification's words for the legacy precedence rule: the
    suite's hook if the suite defines one other than the canonical
    no-op; otherwise the hook of the test's context if it defines one. *)
Definition resolve_hook (suite : TestSuite world) (spec : CgreenTest world)
           (ph : phase) : option hook_source :=
  match ph with
  | Setup =>
      if negb (is_do_nothing (suite_setup suite)) then Some from_suite
      else if negb (is_NULL (context_setup (test_context spec))) then Some from_context
      else None
  | Teardown =>
      if negb (is_do_nothing (suite_teardown suite)) then Some from_suite
      else if negb (is_NULL (context_teardown (test_context spec))) then Some from_context
      else None
  | Test => None
  end.

Definition at_most_one {A : Type} (o : option A) : list A :=
  match o with
  | Some a => [a]
  | None => []
  end.

(** The message as the specification words it, with nothing cut. *)
Definition claimed_message (ph : phase) (detail : string) : string :=
  ("an exception was thrown during " ++ phase_label ph ++ ": [" ++ detail ++ "]")%string.

(** The function a phase of a test calls inside its wrapper, the entry
    the wrapper logs, and the wrapper. *)
Definition wrapped_pointer (ph : phase) (spec : CgreenTest world) : funptr world :=
  match ph with
  | Setup => context_setup (test_context spec)
  | Test => test_run spec
  | Teardown => context_teardown (test_context spec)
  end.

Definition wrapped_event (ph : phase) (spec : CgreenTest world) : event world :=
  match ph with
  | Setup => ev_context_hook spec Setup
  | Test => ev_body spec
  | Teardown => ev_context_hook spec Teardown
  end.

Definition wrapper (ph : phase)
  : CgreenTest world -> M world unit :=
  match ph with
  | Setup => run_setup_for
  | Test => run
  | Teardown => run_teardown_for
  end.

Definition is_show_fail (e : event world) : bool :=
  match e with
  | ev_show_fail _ _ _ => true
  | _ => false
  end.

(** The per-test timeout is absent, or it is a positive number. *)
Definition timeout_accepted {platform : Platform world} (w : world) : Prop :=
  match getenv CGREEN_PER_TEST_TIMEOUT_ENVIRONMENT_VARIABLE w with
  | Some value => 0 < atoi value
  | None => True
  end.

(** The piece of the runner returned. *)
Definition returned {A : Type} (r : result world A) : Prop :=
  match r with
  | Ret _ _ => True
  | _ => False
  end.

(** Whatever the state and however it ends, the hook calls of phase
    [ph] that [m] logs are none or [l]; they are [l] when [m] returns. *)
Definition hooks_of (ph : phase) (m : M world unit) (l : list hook_source) : Prop :=
  forall st,
    (hook_calls ph (snd (m st)) = [] \/ hook_calls ph (snd (m st)) = l)
    /\ (returned (fst (m st)) -> hook_calls ph (snd (m st)) = l).

(** The body of the loop of [run_named_test], for one entry. *)
Definition named_entry {platform : Platform world}
           (suite : TestSuite world) (name : string)
           (reporter : TestReporter world) (entry : UnitTest world) : M world unit :=
  match entry with
  | test_function entry_name test =>
      if String.eqb entry_name name
      then run_test_in_the_current_process suite test reporter
      else ret tt
  | test_suite _ nested =>
      if has_test nested name
      then bind (tell (ev_suite_hook suite Setup (around_suite nested))) (fun _ =>
           bind (call (suite_setup suite)) (fun _ =>
           bind (run_named_test nested name reporter) (fun _ =>
           bind (tell (ev_suite_hook suite Teardown (around_suite nested))) (fun _ =>
           call (suite_teardown suite)))))
      else ret tt
  end.

(** What a named run may log about suites: a suite is started only if
    it is the root or a suite below it that holds the target name; a
    hook is called around a nested suite only by the suite it is an
    entry of, and only if the nested suite holds the target name; a hook
    is called for a test only by the root or by a suite below it that
    holds the target name. *)
Definition allowed (root : TestSuite world) (name : string) (e : event world) : Prop :=
  match e with
  | ev_start_suite started _ =>
      started = root \/ (In started (subsuites root) /\ has_test started name = true)
  | ev_suite_hook owner _ (around_suite nested) =>
      (owner = root \/ In owner (subsuites root))
      /\ child_of nested owner
      /\ has_test nested name = true
  | ev_suite_hook owner _ (for_test _) =>
      owner = root \/ (In owner (subsuites root) /\ has_test owner name = true)
  | _ => True
  end.

(** What running one test of [suite] may log about suites: nothing but
    calls of the hooks of [suite] for that test. *)
Definition neutral (suite : TestSuite world) (e : event world) : Prop :=
  match e with
  | ev_start_suite _ _ => False
  | ev_suite_hook _ _ (around_suite _) => False
  | ev_suite_hook owner _ (for_test _) => owner = suite
  | _ => True
  end.

(** The log holds a complete visit of [nested] from [owner]: the
    owner's setup, a named run of [nested] that returned, the owner's
    teardown. *)
Definition bracketed {platform : Platform world}
           (owner nested : TestSuite world) (name : string)
           (reporter : TestReporter world) (log : list (event world)) : Prop :=
  exists before inside after st1 st2,
    log = before
            ++ ev_suite_hook owner Setup (around_suite nested)
            :: inside
            ++ ev_suite_hook owner Teardown (around_suite nested)
            :: after
    /\ run_named_test nested name reporter st1 = (Ret tt st2, inside).

(** The state [setup_reporting] leaves. *)
Definition reporting {platform : Platform world} (reporter : TestReporter world)
           (st : state world) : state world :=
  {| mem := reporting_setup reporter (mem st);
     context_reporter := Some reporter |}.

(* ------------------------------------------------------------------ *)
(** *** Reading the log of a full run and of the per-test sequence *)

(** The body of the loop of [run_every_test], for one entry. *)
Definition every_entry {platform : Platform world}
           (suite : TestSuite world) (reporter : TestReporter world)
           (entry : UnitTest world) : M world unit :=
  match entry with
  | test_function _ test =>
      bind (tell (ev_isolated suite test)) (fun _ =>
      foreign (test_in_its_own_process suite test reporter))
  | test_suite _ nested =>
      bind (tell (ev_suite_hook suite Setup (around_suite nested))) (fun _ =>
      bind (call (suite_setup suite)) (fun _ =>
      bind (run_every_test nested reporter) (fun _ =>
      bind (tell (ev_suite_hook suite Teardown (around_suite nested))) (fun _ =>
      call (suite_teardown suite)))))
  end.

(** The calls of a full run, read off the tree alone: per suite the
    child check and [start_suite], then entry by entry either the hand
    over of a test to its own process or a nested suite between the
    suite's setup and teardown, then the completion notification and
    [finish_suite]. *)
Fixpoint outline (suite : TestSuite world) : list (event world) :=
  match suite with
  | Suite _ _ _ _ _ tests =>
      ev_child_check suite
        :: ev_start_suite suite (count_tests suite)
        :: flat_map (fun entry =>
                       match entry with
                       | test_function _ test => [ev_isolated suite test]
                       | test_suite _ nested =>
                           ev_suite_hook suite Setup (around_suite nested)
                             :: outline nested
                             ++ [ev_suite_hook suite Teardown (around_suite nested)]
                       end) tests
        ++ [ev_completion; ev_finish_suite suite]
  end.

Definition is_prefix {A : Type} (l whole : list A) : Prop :=
  exists rest, whole = l ++ rest.

(** Whatever the state and however [m] ends, what it logs is a prefix
    of [l]; it is [l] when [m] returns. *)
Definition follows (m : M world unit) (l : list (event world)) : Prop :=
  forall st,
    is_prefix (snd (m st)) l
    /\ (returned (fst (m st)) -> snd (m st) = l).




(** The entries only a full run writes. *)
Definition in_isolation (e : event world) : bool :=
  match e with
  | ev_isolated _ _ | ev_child_check _ => true
  | _ => false
  end.

(** What the per-test sequence of [spec] in [suite] may log. *)
Definition per_test_event (suite : TestSuite world) (spec : CgreenTest world)
           (e : event world) : Prop :=
  match e with
  | ev_significant_figures figures => figures = 8
  | ev_clear_mocks | ev_tally_mocks | ev_printf _ | ev_die_in _ => True
  | ev_suite_hook owner _ (for_test test) => owner = suite /\ test = spec
  | ev_context_hook test _ => test = spec
  | ev_body test => test = spec
  | ev_show_fail filename line _ =>
      filename = test_filename spec /\ line = test_line spec
  | _ => False
  end.

(** The notifications that close a test or a suite. *)
Definition closing (e : event world) : bool :=
  match e with
  | ev_completion | ev_finish_test _ | ev_finish_suite _ => true
  | _ => false
  end.

Definition is_finish (e : event world) : Prop :=
  match e with
  | ev_finish_test _ | ev_finish_suite _ => True
  | _ => False
  end.

(** A list of closing notifications in which every finish comes right
    after a completion notification of its own. *)
Definition paired (l : list (event world)) : Prop :=
  exists finishes,
    Forall is_finish finishes
    /\ l = flat_map (fun finish => [ev_completion; finish]) finishes.


(** The piece of the runner did not run into undefined behaviour and
    left the reporter of the run in place. *)
Definition keeps {A : Type} (reporter : option (TestReporter world))
           (r : result world A) : Prop :=
  match r with
  | Ret _ st | Thrown _ st | Exited _ st => context_reporter st = reporter
  | Crashed => False
  end.

Definition preserving {A : Type} (reporter : option (TestReporter world))
           (m : M world A) : Prop :=
  forall st, context_reporter st = reporter -> keeps reporter (fst (m st)).

(** The state the per-test sequence is in after it has reset the
    precision and the mocks. *)
Definition after_reset {platform : Platform world} (st : state world) : state world :=
  with_mem st (mocks_cleared (significant_figures 8 (mem st))).

(** What a named run for [name] below [root] may log about tests:
    nothing of a full run, and tests only if they carry the name. *)
Definition named_only (root : TestSuite world) (name : string) (e : event world) : Prop :=
  in_isolation e = false
  /\ match e with
     | ev_start_test test | ev_finish_test test | ev_body test
     | ev_context_hook test _ | ev_suite_hook _ _ (for_test test) =>
         In test (all_matches root name)
     | _ => True
     end.

(** Neither the watchdog nor a diagnostic. *)
Definition unarmed (e : event world) : Prop :=
  match e with
  | ev_die_in _ | ev_printf _ => False
  | _ => True
  end.

(* ------------------------------------------------------------------ *)
(** *** What the runner does to the state *)

(** The next step starts from the state the step before returned; an
    exception, an exit or undefined behaviour ends the sequence. *)
Definition and_then {A : Type} (r : result world unit)
           (k : state world -> result world A) : result world A :=
  match r with
  | Ret _ st => k st
  | Thrown e st => Thrown e st
  | Exited status st => Exited status st
  | Crashed => Crashed
  end.

(** A foreign operation that always returns, applied to the memory. *)
Definition applied (f : world -> world) (st : state world) : result world unit :=
  Ret tt (with_mem st (f (mem st))).

(** The function behind a pointer, run on the memory: what the code at
    the pointer answers decides how the call ends; there is no code
    behind NULL, and the canonical no-op returns at once. *)
Definition invoked (f : funptr world) (st : state world) : result world unit :=
  match f with
  | NULL => Crashed
  | do_nothing => Ret tt st
  | function body =>
      match body (mem st) with
      | returns w => Ret tt (with_mem st w)
      | throws e w => Thrown e (with_mem st w)
      | exits status w => Exited status (with_mem st w)
      end
  end.

(** The five handlers around a call that ended as [r]: an exception of
    a shape they take becomes a call of the failure callback of the
    run's reporter at the location of the test, on the memory the
    throwing code left; everything else passes. *)
Definition handled (ph : phase) (spec : CgreenTest world)
           (reporter : option (TestReporter world))
           (r : result world unit) : result world unit :=
  match r with
  | Thrown e st =>
      match caught e, reporter with
      | Some detail, Some reporter =>
          Ret tt (with_mem st (show_fail reporter (test_filename spec) (test_line spec)
                                         (exception_message ph detail) (mem st)))
      | Some _, None => Crashed
      | None, _ => Thrown e st
      end
  | finished => finished
  end.

(** The hook of a phase as the precedence rule resolves it, run on the
    state: the suite's hook bare, the hook of the test's context inside
    the handlers, or nothing at all. *)
Definition hook_outcome (suite : TestSuite world) (spec : CgreenTest world)
           (ph : phase) (st : state world) : result world unit :=
  match ph, resolve_hook suite spec ph with
  | Setup, Some from_suite => invoked (suite_setup suite) st
  | Setup, Some from_context =>
      handled Setup spec (context_reporter st)
              (invoked (context_setup (test_context spec)) st)
  | Teardown, Some from_suite => invoked (suite_teardown suite) st
  | Teardown, Some from_context =>
      handled Teardown spec (context_reporter st)
              (invoked (context_teardown (test_context spec)) st)
  | _, _ => Ret tt st
  end.

(** The timeout on the state: nothing without the variable, an exit
    with the failure status on a value that is not positive, the
    watchdog armed otherwise. *)
Definition timer_outcome {platform : Platform world} (st : state world)
  : result world unit :=
  match getenv CGREEN_PER_TEST_TIMEOUT_ENVIRONMENT_VARIABLE (mem st) with
  | Some value =>
      if atoi value <=? 0
      then Exited EXIT_FAILURE st
      else Ret tt (with_mem st (alarm_in (atoi value) (mem st)))
  | None => Ret tt st
  end.

(** The per-test sequence on the state: the two resets, the timeout,
    the resolved setup hook, the body inside the handlers, the resolved
    teardown hook, the mock tally. *)
Definition test_outcome {platform : Platform world}
           (suite : TestSuite world) (spec : CgreenTest world)
           (reporter : TestReporter world) (st : state world) : result world unit :=
  and_then (applied (significant_figures 8) st) (fun s0 =>
  and_then (applied mocks_cleared s0) (fun s1 =>
  and_then (timer_outcome s1) (fun s2 =>
  and_then (hook_outcome suite spec Setup s2) (fun s3 =>
  and_then (handled Test spec (context_reporter s3) (invoked (test_run spec) s3))
           (fun s4 =>
  and_then (hook_outcome suite spec Teardown s4) (fun s5 =>
  applied (mocks_tallied reporter) s5)))))).

(** A test run as a test of its own, on the state: [start_test], the
    per-test sequence, the completion notification, [finish_test]. *)
Definition reported_test_outcome {platform : Platform world}
           (suite : TestSuite world) (reporter : TestReporter world)
           (test : CgreenTest world) (st : state world) : result world unit :=
  and_then (applied (start_test reporter (test_name test)) st) (fun s1 =>
  and_then (test_outcome suite test reporter s1) (fun s2 =>
  and_then (applied (completion_notification reporter) s2) (fun s3 =>
  applied (finish_test reporter (test_filename test) (test_line test)) s3))).

(** One step after the other, in the order of the list. *)
Fixpoint in_turn {A : Type} (step : A -> state world -> result world unit)
         (l : list A) (st : state world) : result world unit :=
  match l with
  | [] => Ret tt st
  | x :: rest => and_then (step x st) (in_turn step rest)
  end.

(** The named traversal on the state: [start_suite]; entry by entry, a
    test that carries the name is run as a test of its own, a nested
    suite that holds the name is visited between the setup and the
    teardown of the suite it is an entry of, and every other entry
    leaves the state as it is; then the completion notification and
    [finish_suite]. *)
Fixpoint named_outcome {platform : Platform world}
         (suite : TestSuite world) (name : string) (reporter : TestReporter world)
         {struct suite} : state world -> result world unit :=
  match suite with
  | Suite _ _ _ _ _ tests =>
      fun st =>
        and_then (applied (start_suite reporter (suite_name suite) (count_tests suite)) st)
                 (fun s1 =>
        and_then (in_turn
                    (fun entry s =>
                       match entry with
                       | test_function entry_name test =>
                           if String.eqb entry_name name
                           then reported_test_outcome suite reporter test s
                           else Ret tt s
                       | test_suite _ nested =>
                           if has_test nested name
                           then and_then (invoked (suite_setup suite) s) (fun a =>
                                and_then (named_outcome nested name reporter a) (fun b =>
                                invoked (suite_teardown suite) b))
                           else Ret tt s
                       end) tests s1)
                 (fun s2 =>
        and_then (applied (completion_notification reporter) s2) (fun s3 =>
        applied (finish_suite reporter (suite_filename suite) (suite_line suite)) s3)))
  end.

(** One entry of a suite in a named traversal, on the state. *)
Definition named_entry_outcome {platform : Platform world}
           (suite : TestSuite world) (name : string) (reporter : TestReporter world)
           (entry : UnitTest world) (st : state world) : result world unit :=
  match entry with
  | test_function entry_name test =>
      if String.eqb entry_name name
      then reported_test_outcome suite reporter test st
      else Ret tt st
  | test_suite _ nested =>
      if has_test nested name
      then and_then (invoked (suite_setup suite) st) (fun a =>
           and_then (named_outcome nested name reporter a) (fun b =>
           invoked (suite_teardown suite) b))
      else Ret tt st
  end.

(** The entries of the suite are tests, none is a nested suite. *)
Definition only_tests (suite : TestSuite world) : bool :=
  forallb (fun entry => match entry with
                        | test_function _ _ => true
                        | test_suite _ _ => false
                        end) (suite_tests suite).

End Observations.

(* ================================================================== *)
(** ** A concrete platform, reporters and suites *)

Module Sample.

(** A small memory: the two counters of the reporter and the
    environment variable of the timeout. *)
Record memory : Type := {
  failure_count : Z;
  exception_count : Z;
  timeout_variable : option string
}.

Definition is_digit (c : ascii) : bool :=
  (48 <=? nat_of_ascii c)%nat && (nat_of_ascii c <=? 57)%nat.

Fixpoint digits (s : string) (so_far : Z) : Z :=
  match s with
  | String c rest =>
      if is_digit c
      then digits rest (10 * so_far + (Z.of_nat (nat_of_ascii c) - 48))
      else so_far
  | EmptyString => so_far
  end.

(** [atoi] on a numeral without leading blanks: an optional sign and
    the decimal digits that follow; 0 when there are none. *)
Definition numeral (s : string) : Z :=
  match s with
  | String "-"%char rest => - digits rest 0
  | String "+"%char rest => digits rest 0
  | _ => digits s 0
  end.

Definition plain : Platform memory := {|
  getenv name w :=
    if String.eqb name CGREEN_PER_TEST_TIMEOUT_ENVIRONMENT_VARIABLE
    then timeout_variable w else None;
  atoi := numeral;
  reporting_setup _ w := w;
  completion_notification _ w := w;
  specified_test_if_child _ _ w := returns w;
  test_in_its_own_process _ _ _ w := returns w;
  alarm_in _ w := w;
  significant_figures _ w := w;
  mocks_cleared w := w;
  mocks_tallied _ w := w
|}.

(** A reporter whose failure callback counts one failure per call, the
    way the specification describes an assertion failure. *)
Definition counting_reporter : TestReporter memory := {|
  start_suite _ _ w := w;
  start_test _ w := w;
  show_fail _ _ _ w :=
    {| failure_count := failure_count w + 1;
       exception_count := exception_count w;
       timeout_variable := timeout_variable w |};
  finish_test _ _ w := w;
  finish_suite _ _ w := w;
  failures := failure_count;
  exceptions := exception_count
|}.

Definition clean : memory :=
  {| failure_count := 0; exception_count := 0; timeout_variable := None |}.

Definition with_timeout (value : string) : memory :=
  {| failure_count := 0; exception_count := 0; timeout_variable := Some value |}.

(** A memory in which an exception was counted and no failure. *)
Definition one_exception : memory :=
  {| failure_count := 0; exception_count := 1; timeout_variable := None |}.

Definition fresh (w : memory) : state memory :=
  {| mem := w; context_reporter := None |}.

Definition registered (w : memory) : state memory :=
  {| mem := w; context_reporter := Some counting_reporter |}.

Definition no_context : CgreenContext memory :=
  {| context_setup := NULL; context_teardown := NULL |}.

Definition passes : funptr memory := function returns.

Definition throwing (e : thrown) : funptr memory := function (throws e).

Definition test_at (name : string) (line : Z) (context : CgreenContext memory)
           (body : funptr memory) : CgreenTest memory :=
  {| test_name := name; test_filename := "tests.c"; test_line := line;
     test_context := context; test_run := body |}.

Definition first : CgreenTest memory := test_at "twice" 10 no_context passes.
Definition second : CgreenTest memory := test_at "twice" 20 no_context passes.
Definition other : CgreenTest memory := test_at "once" 30 no_context passes.

(** A text longer than the message buffer. *)
Fixpoint repeated (n : nat) (c : ascii) : string :=
  match n with
  | O => EmptyString
  | S n' => String c (repeated n' c)
  end.

Definition long_text : string := repeated 300 "x"%char.

Definition explodes : CgreenTest memory :=
  test_at "explodes" 40 no_context (throwing (std_exception_object "boom")).

Definition verbose : CgreenTest memory :=
  test_at "verbose" 50 no_context (throwing (c_string long_text)).

Definition with_hooks : CgreenContext memory :=
  {| context_setup := passes; context_teardown := passes |}.

Definition hooked : CgreenTest memory := test_at "hooked" 60 with_hooks passes.

Definition plain_suite (name : string) (tests : list (UnitTest memory))
  : TestSuite memory :=
  Suite name "tests.c" 1 do_nothing do_nothing tests.

(** Two tests of one suite carry the same name. *)
Definition duplicates : TestSuite memory :=
  plain_suite "duplicates"
    [test_function "twice" first;
     test_function "once" other;
     test_function "twice" second].

Definition inner_match : TestSuite memory :=
  plain_suite "inner_match" [test_function "once" other].

Definition inner_other : TestSuite memory :=
  plain_suite "inner_other" [test_function "twice" first].

Definition outer : TestSuite memory :=
  plain_suite "outer"
    [test_suite "inner_other" inner_other;
     test_suite "inner_match" inner_match].

(** A suite whose only test throws. *)
Definition exploding : TestSuite memory :=
  plain_suite "exploding" [test_function "explodes" explodes].

(** A suite with a legacy setup that throws. *)
Definition legacy : TestSuite memory :=
  Suite "legacy" "tests.c" 2 (throwing (c_string "boom")) do_nothing
        [test_function "hooked" hooked].

Definition legacy_quiet : TestSuite memory :=
  Suite "legacy_quiet" "tests.c" 3 passes passes
        [test_function "hooked" hooked].

(** A test that throws something no handler takes. *)
Definition alien : CgreenTest memory :=
  test_at "alien" 70 no_context (throwing (other_object 42)).

(** A suite of suites, for a full run. *)
Definition root_of_all : TestSuite memory :=
  plain_suite "root_of_all"
    [test_function "hooked" hooked;
     test_suite "outer" outer;
     test_function "once" other].

(** A test with hooks of its own whose body throws. *)
Definition explodes_hooked : CgreenTest memory :=
  test_at "explodes_hooked" 80 with_hooks (throwing (std_exception_object "boom")).

(** Hooks and bodies that leave a trace in the memory. *)
Definition add_failures (n : Z) : funptr memory :=
  function (fun w => returns {| failure_count := failure_count w + n;
                                exception_count := exception_count w;
                                timeout_variable := timeout_variable w |}).

Definition add_exceptions (n : Z) : funptr memory :=
  function (fun w => returns {| failure_count := failure_count w;
                                exception_count := exception_count w + n;
                                timeout_variable := timeout_variable w |}).

Definition counts (f e : Z) : memory :=
  {| failure_count := f; exception_count := e; timeout_variable := None |}.

(** A test whose context hooks count exceptions: 1 for the setup, 10
    for the teardown. *)
Definition tracked_test : CgreenTest memory :=
  test_at "tracked" 90
          {| context_setup := add_exceptions 1; context_teardown := add_exceptions 10 |}
          passes.

(** A suite whose hooks count failures: 10 for the setup, 100 for the
    teardown. *)
Definition tracked_suite (tests : list (UnitTest memory)) : TestSuite memory :=
  Suite "tracked_suite" "tests.c" 4 (add_failures 10) (add_failures 100) tests.

Definition tracked_flat : TestSuite memory :=
  tracked_suite [test_function "tracked" tracked_test].

(** The two nested suites of [outer] below a suite with hooks that
    count. *)
Definition tracked_outer : TestSuite memory :=
  tracked_suite [test_suite "inner_other" inner_other;
                 test_suite "inner_match" inner_match].

(** Two tests of one suite with the same name, each counting one
    failure when its body runs. *)
Definition counted_first : CgreenTest memory :=
  test_at "twice" 100 no_context (add_failures 1).
Definition counted_second : CgreenTest memory :=
  test_at "twice" 110 no_context (add_failures 1).

Definition counted_duplicates : TestSuite memory :=
  plain_suite "counted_duplicates"
    [test_function "twice" counted_first;
     test_function "once" other;
     test_function "twice" counted_second].

End Sample.

(* ================================================================== *)
(** ** The breadcrumb laws *)

Module BreadcrumbLaws.
Import Breadcrumb.

Lemma current_after_push (b : Breadcrumb) (name : string) :
  get_current_from_breadcrumb (push_breadcrumb b name) = Some name.
Proof.
  unfold push_breadcrumb.
  induction b as [|x rest IH]; [reflexivity|].
  simpl. destruct (rest ++ [name]) eqn:E.
  - destruct rest; discriminate.
  - exact IH.
Qed.

Lemma pop_after_push (b : Breadcrumb) (name : string) :
  pop_breadcrumb (push_breadcrumb b name) = b.
Proof. apply removelast_last. Qed.

Lemma walk_after_push {Memo : Type} (b : Breadcrumb) (name : string)
      (walker : string -> Memo -> Memo) (memo : Memo) :
  walk_breadcrumb (push_breadcrumb b name) walker memo
  = walker name (walk_breadcrumb b walker memo).
Proof.
  unfold push_breadcrumb. revert memo.
  induction b as [|x rest IH]; intros memo; [reflexivity|].
  simpl. apply IH.
Qed.

(** C8: the breadcrumb is a LIFO stack. A fresh breadcrumb has no
    current entry; after pushing "Hello" the current entry is "Hello";
    after pushing "Hello" and "Goodbye" it is "Goodbye"; one pop after
    that makes it "Hello" again; one push followed by one pop leaves the
    breadcrumb empty; walking an empty breadcrumb never calls the
    visitor; walking a breadcrumb that holds only "Hello" calls the
    visitor exactly once, with "Hello". *)
Theorem breadcrumb_is_a_stack :
  let hello := push_breadcrumb create_breadcrumb "Hello" in
  let goodbye := push_breadcrumb hello "Goodbye" in
  get_current_from_breadcrumb create_breadcrumb = None
  /\ get_current_from_breadcrumb hello = Some "Hello"
  /\ get_current_from_breadcrumb goodbye = Some "Goodbye"
  /\ get_current_from_breadcrumb (pop_breadcrumb goodbye) = Some "Hello"
  /\ get_current_from_breadcrumb (pop_breadcrumb hello) = None
  /\ pop_breadcrumb hello = create_breadcrumb
  /\ (forall (Memo : Type) (walker : string -> Memo -> Memo) (memo : Memo),
         walk_breadcrumb create_breadcrumb walker memo = memo)
  /\ (forall (Memo : Type) (walker : string -> Memo -> Memo) (memo : Memo),
         walk_breadcrumb hello walker memo = walker "Hello" memo)
  /\ walk_breadcrumb create_breadcrumb recording_walker [] = []
  /\ walk_breadcrumb hello recording_walker [] = ["Hello"].
Proof.
  intros hello goodbye. subst hello goodbye.
  repeat apply conj.
  - reflexivity.
  - apply current_after_push.
  - apply current_after_push.
  - rewrite pop_after_push. apply current_after_push.
  - rewrite pop_after_push. reflexivity.
  - apply pop_after_push.
  - reflexivity.
  - intros. rewrite walk_after_push. reflexivity.
  - reflexivity.
  - reflexivity.
Qed.

End BreadcrumbLaws.

(* ================================================================== *)
(** ** Properties of the runner *)

Section RunnerLemmas.

Context {world : Type} {platform : Platform world}.

Local Open Scope runner_scope.

(** *** Sequencing *)

Lemma bind_returns {A B : Type} (m : M world A) (k : A -> M world B)
      (st st' : state world) (b : B) (log : list (event world)) :
  bind m k st = (Ret b st', log) ->
  exists a st1 l1 l2,
    m st = (Ret a st1, l1) /\ k a st1 = (Ret b st', l2) /\ log = l1 ++ l2.
Proof.
  unfold bind. intros H.
  destruct (m st) as [[a st1|e st1|c st1|] l1]; try discriminate.
  destruct (k a st1) as [r l2] eqn:K.
  inversion H; subst. eauto 10.
Qed.

Lemma bind_continues {A B : Type} (m : M world A) (k : A -> M world B)
      (st st1 : state world) (a : A) (l1 : list (event world)) :
  m st = (Ret a st1, l1) ->
  bind m k st = (fst (k a st1), l1 ++ snd (k a st1)).
Proof.
  unfold bind. intros ->. destruct (k a st1); reflexivity.
Qed.

Lemma bind_log {A B : Type} (m : M world A) (k : A -> M world B) (st : state world) :
  snd (bind m k st)
  = snd (m st) ++ match fst (m st) with
                  | Ret a st1 => snd (k a st1)
                  | _ => []
                  end.
Proof.
  unfold bind.
  destruct (m st) as [[a st1|e st1|c st1|] l1]; simpl;
    try (rewrite app_nil_r; reflexivity).
  destruct (k a st1); reflexivity.
Qed.

Lemma bind_result {A B : Type} (m : M world A) (k : A -> M world B) (st : state world) :
  fst (bind m k st)
  = match fst (m st) with
    | Ret a st1 => fst (k a st1)
    | Thrown e st1 => Thrown e st1
    | Exited status st1 => Exited status st1
    | Crashed => Crashed
    end.
Proof.
  unfold bind.
  destruct (m st) as [[a st1|e st1|c st1|] l1]; simpl; try reflexivity.
  destruct (k a st1); reflexivity.
Qed.

(** *** The timeout *)

Lemma per_test_timeout_value_eq (st : state world) :
  per_test_timeout_value st
  = match getenv CGREEN_PER_TEST_TIMEOUT_ENVIRONMENT_VARIABLE (mem st) with
    | Some value => (Ret (atoi value) st, [])
    | None =>
        (Exited EXIT_FAILURE st,
         [ev_printf ("attempt to fetch undefined value for "
                       ++ CGREEN_PER_TEST_TIMEOUT_ENVIRONMENT_VARIABLE
                       ++ newline)%string])
    end.
Proof.
  unfold per_test_timeout_value, per_test_timeout_defined, bind, ret, die.
  destruct (getenv _ (mem st)) as [value|] eqn:G; simpl; rewrite ?G; reflexivity.
Qed.

Lemma validate_per_test_timeout_value_eq (st : state world) :
  validate_per_test_timeout_value st
  = match getenv CGREEN_PER_TEST_TIMEOUT_ENVIRONMENT_VARIABLE (mem st) with
    | Some value =>
        if atoi value <=? 0
        then (Exited EXIT_FAILURE st,
              [ev_printf ("invalid value for "
                            ++ CGREEN_PER_TEST_TIMEOUT_ENVIRONMENT_VARIABLE
                            ++ " environment variable: "
                            ++ decimal (atoi value) ++ newline)%string])
        else (Ret tt st, [])
    | None =>
        (Exited EXIT_FAILURE st,
         [ev_printf ("attempt to fetch undefined value for "
                       ++ CGREEN_PER_TEST_TIMEOUT_ENVIRONMENT_VARIABLE
                       ++ newline)%string])
    end.
Proof.
  unfold validate_per_test_timeout_value, bind.
  rewrite per_test_timeout_value_eq.
  destruct (getenv _ (mem st)) as [value|]; [|reflexivity].
  destruct (atoi value <=? 0); reflexivity.
Qed.

Lemma timeout_check_eq (st : state world) :
  (defined <- per_test_timeout_defined ;;
   if defined then validate_per_test_timeout_value else ret tt) st
  = match getenv CGREEN_PER_TEST_TIMEOUT_ENVIRONMENT_VARIABLE (mem st) with
    | Some _ => validate_per_test_timeout_value st
    | None => (Ret tt st, [])
    end.
Proof.
  unfold bind at 1. unfold per_test_timeout_defined.
  destruct (getenv _ (mem st)) as [value|]; [|reflexivity].
  destruct (validate_per_test_timeout_value st); reflexivity.
Qed.

Lemma timeout_check_returns (st st' : state world) (log : list (event world)) :
  (defined <- per_test_timeout_defined ;;
   if defined then validate_per_test_timeout_value else ret tt) st
  = (Ret tt st', log) ->
  st' = st /\ log = [] /\ timeout_accepted (mem st).
Proof.
  rewrite timeout_check_eq, validate_per_test_timeout_value_eq.
  unfold timeout_accepted.
  destruct (getenv _ (mem st)) as [value|].
  - destruct (atoi value <=? 0) eqn:E; intros H; inversion H; subst.
    repeat apply conj; try reflexivity. lia.
  - intros H; inversion H; subst. repeat apply conj; reflexivity || exact I.
Qed.

Lemma timeout_check_aborts (st : state world) (value : string) :
  getenv CGREEN_PER_TEST_TIMEOUT_ENVIRONMENT_VARIABLE (mem st) = Some value ->
  atoi value <= 0 ->
  per_test_timeout_defined st = (Ret true st, [])
  /\ validate_per_test_timeout_value st
     = (Exited EXIT_FAILURE st,
        [ev_printf ("invalid value for "
                      ++ CGREEN_PER_TEST_TIMEOUT_ENVIRONMENT_VARIABLE
                      ++ " environment variable: "
                      ++ decimal (atoi value) ++ newline)%string]).
Proof.
  intros G N.
  rewrite validate_per_test_timeout_value_eq.
  unfold per_test_timeout_defined.
  rewrite G.
  destruct (atoi value <=? 0) eqn:E; [|lia].
  split; reflexivity.
Qed.

(** *** The two entry points *)

Lemma run_test_suite_returns (suite : TestSuite world) (reporter : TestReporter world)
      (st st' : state world) (status : Z) (log : list (event world)) :
  run_test_suite suite reporter st = (Ret status st', log) ->
  timeout_accepted (mem st)
  /\ (exists log', log = ev_setup_reporting :: log'
                   /\ run_every_test suite reporter (reporting reporter st)
                      = (Ret tt st', log'))
  /\ status = (if (failures reporter (mem st') =? 0)
                    && (exceptions reporter (mem st') =? 0)
               then EXIT_SUCCESS else EXIT_FAILURE).
Proof.
  unfold run_test_suite. intros H.
  apply bind_returns in H. destruct H as (defined & s1 & l1 & l2 & H1 & H2 & ->).
  apply bind_returns in H2. destruct H2 as ([] & s2 & l3 & l4 & H2 & H3 & ->).
  apply bind_returns in H3. destruct H3 as ([] & s3 & l5 & l6 & H3 & H4 & ->).
  apply bind_returns in H4. destruct H4 as ([] & s4 & l7 & l8 & H4 & H5 & ->).
  assert (T : (defined <- per_test_timeout_defined ;;
               if defined then validate_per_test_timeout_value else ret tt) st
              = (Ret tt s2, l1 ++ l3)).
  { rewrite (bind_continues _ _ _ _ _ _ H1). rewrite H2. reflexivity. }
  apply timeout_check_returns in T. destruct T as (-> & E & T).
  apply app_eq_nil in E. destruct E as [-> ->].
  unfold setup_reporting in H3. inversion H3; subst.
  inversion H5; subst.
  split; [exact T|]. split; [|reflexivity].
  exists l7. split; [simpl; rewrite app_nil_r; reflexivity|exact H4].
Qed.

Lemma run_single_test_returns (suite : TestSuite world) (name : string)
      (reporter : TestReporter world)
      (st st' : state world) (status : Z) (log : list (event world)) :
  run_single_test suite name reporter st = (Ret status st', log) ->
  timeout_accepted (mem st)
  /\ (exists log', log = ev_setup_reporting :: log'
                   /\ run_named_test suite name reporter (reporting reporter st)
                      = (Ret tt st', log'))
  /\ status = (if failures reporter (mem st') =? 0
               then EXIT_SUCCESS else EXIT_FAILURE).
Proof.
  unfold run_single_test. intros H.
  apply bind_returns in H. destruct H as (defined & s1 & l1 & l2 & H1 & H2 & ->).
  apply bind_returns in H2. destruct H2 as ([] & s2 & l3 & l4 & H2 & H3 & ->).
  apply bind_returns in H3. destruct H3 as ([] & s3 & l5 & l6 & H3 & H4 & ->).
  apply bind_returns in H4. destruct H4 as ([] & s4 & l7 & l8 & H4 & H5 & ->).
  assert (T : (defined <- per_test_timeout_defined ;;
               if defined then validate_per_test_timeout_value else ret tt) st
              = (Ret tt s2, l1 ++ l3)).
  { rewrite (bind_continues _ _ _ _ _ _ H1). rewrite H2. reflexivity. }
  apply timeout_check_returns in T. destruct T as (-> & E & T).
  apply app_eq_nil in E. destruct E as [-> ->].
  unfold setup_reporting in H3. inversion H3; subst.
  inversion H5; subst.
  split; [exact T|]. split; [|reflexivity].
  exists l7. split; [simpl; rewrite app_nil_r; reflexivity|exact H4].
Qed.

Lemma timeout_check_steps (st : state world) :
  timeout_accepted (mem st) ->
  exists defined,
    per_test_timeout_defined st = (Ret defined st, [])
    /\ (if defined then validate_per_test_timeout_value else ret tt) st
       = (Ret tt st, []).
Proof.
  unfold timeout_accepted, per_test_timeout_defined. intros T.
  destruct (getenv _ (mem st)) as [value|] eqn:G.
  - exists true. split; [reflexivity|].
    rewrite validate_per_test_timeout_value_eq, G.
    destruct (atoi value <=? 0) eqn:E; [lia|reflexivity].
  - exists false. split; reflexivity.
Qed.

Lemma run_test_suite_completes (suite : TestSuite world) (reporter : TestReporter world)
      (st st' : state world) (log : list (event world)) :
  timeout_accepted (mem st) ->
  run_every_test suite reporter (reporting reporter st) = (Ret tt st', log) ->
  run_test_suite suite reporter st
  = (Ret (if (failures reporter (mem st') =? 0)
               && (exceptions reporter (mem st') =? 0)
          then EXIT_SUCCESS else EXIT_FAILURE) st',
     ev_setup_reporting :: log).
Proof.
  intros T H. destruct (timeout_check_steps st T) as (defined & D & V).
  unfold run_test_suite.
  rewrite (bind_continues _ _ _ _ _ _ D).
  rewrite (bind_continues _ _ _ _ _ _ V).
  assert (R : setup_reporting reporter st
              = (Ret tt (reporting reporter st), [ev_setup_reporting]))
    by reflexivity.
  rewrite (bind_continues _ _ _ _ _ _ R).
  rewrite (bind_continues _ _ _ _ _ _ H).
  simpl. rewrite app_nil_r. reflexivity.
Qed.

Lemma run_single_test_completes (suite : TestSuite world) (name : string)
      (reporter : TestReporter world)
      (st st' : state world) (log : list (event world)) :
  timeout_accepted (mem st) ->
  run_named_test suite name reporter (reporting reporter st) = (Ret tt st', log) ->
  run_single_test suite name reporter st
  = (Ret (if failures reporter (mem st') =? 0
          then EXIT_SUCCESS else EXIT_FAILURE) st',
     ev_setup_reporting :: log).
Proof.
  intros T H. destruct (timeout_check_steps st T) as (defined & D & V).
  unfold run_single_test.
  rewrite (bind_continues _ _ _ _ _ _ D).
  rewrite (bind_continues _ _ _ _ _ _ V).
  assert (R : setup_reporting reporter st
              = (Ret tt (reporting reporter st), [ev_setup_reporting]))
    by reflexivity.
  rewrite (bind_continues _ _ _ _ _ _ R).
  rewrite (bind_continues _ _ _ _ _ _ H).
  simpl. rewrite app_nil_r. reflexivity.
Qed.

(** C1: the full-suite run returns exactly when the timeout check lets
    it start and the traversal of the whole tree runs to its end; the
    status it then returns is the success status if and only if the
    reporter's failures counter and its exceptions counter are both 0
    in the memory the traversal left, and the failure status otherwise.
    The named run does not look at the exceptions counter: with no
    failures it succeeds. *)
Theorem full_run_status
        (suite : TestSuite world) (reporter : TestReporter world)
        (st : state world) :
  (forall st' log,
      timeout_accepted (mem st) ->
      run_every_test suite reporter (reporting reporter st) = (Ret tt st', log) ->
      exists status,
        run_test_suite suite reporter st = (Ret status st', ev_setup_reporting :: log))
  /\ (forall status st' log,
         run_test_suite suite reporter st = (Ret status st', log) ->
         (exists log', run_every_test suite reporter (reporting reporter st)
                       = (Ret tt st', log'))
         /\ (status = EXIT_SUCCESS
             <-> failures reporter (mem st') = 0 /\ exceptions reporter (mem st') = 0)
         /\ (status <> EXIT_SUCCESS -> status = EXIT_FAILURE))
  /\ (forall name status st' log,
         run_single_test suite name reporter st = (Ret status st', log) ->
         failures reporter (mem st') = 0 ->
         status = EXIT_SUCCESS).
Proof.
  repeat apply conj.
  - intros st' log T H. eexists.
    apply run_test_suite_completes; assumption.
  - intros status st' log H. apply run_test_suite_returns in H.
    destruct H as (_ & (log' & _ & H) & ->).
    split; [eauto|].
    unfold EXIT_SUCCESS, EXIT_FAILURE.
    destruct (failures reporter (mem st') =? 0) eqn:F;
      destruct (exceptions reporter (mem st') =? 0) eqn:E; simpl;
      (split; [split; [intros; lia|intros [? ?]; lia || reflexivity]
              |intros; lia || reflexivity]).
  - intros name status st' log H Z.
    apply run_single_test_returns in H. destruct H as (_ & _ & ->).
    rewrite Z. reflexivity.
Qed.

(** C5: the named run returns exactly when the timeout check lets it
    start and the traversal for the target name runs to its end; the
    status it then returns is the success status if and only if the
    reporter's failures counter is 0 in the memory the traversal left,
    whatever the exceptions counter holds, and the failure status
    otherwise. *)
Theorem named_run_status
        (suite : TestSuite world) (name : string) (reporter : TestReporter world)
        (st : state world) :
  (forall st' log,
      timeout_accepted (mem st) ->
      run_named_test suite name reporter (reporting reporter st) = (Ret tt st', log) ->
      exists status,
        run_single_test suite name reporter st
        = (Ret status st', ev_setup_reporting :: log))
  /\ (forall status st' log,
         run_single_test suite name reporter st = (Ret status st', log) ->
         (exists log', run_named_test suite name reporter (reporting reporter st)
                       = (Ret tt st', log'))
         /\ (status = EXIT_SUCCESS <-> failures reporter (mem st') = 0)
         /\ (status <> EXIT_SUCCESS -> status = EXIT_FAILURE)).
Proof.
  split.
  - intros st' log T H. eexists.
    apply run_single_test_completes; assumption.
  - intros status st' log H. apply run_single_test_returns in H.
    destruct H as (_ & (log' & _ & H) & ->).
    split; [eauto|].
    unfold EXIT_SUCCESS, EXIT_FAILURE.
    destruct (failures reporter (mem st') =? 0) eqn:F;
      (split; [split; intros; lia || reflexivity|intros; lia || reflexivity]).
Qed.

(** *** Aborting on a bad timeout *)

Lemma bind_exits {A B : Type} (m : M world A) (k : A -> M world B)
      (st st1 : state world) (status : Z) (log : list (event world)) :
  m st = (Exited status st1, log) ->
  bind m k st = (Exited status st1, log).
Proof. unfold bind. intros ->. reflexivity. Qed.

Lemma external_eq (e : event world) (f : world -> world) (st : state world) :
  external e f st = (Ret tt (with_mem st (f (mem st))), [e]).
Proof. reflexivity. Qed.

Lemma arm_the_timeout_eq (st : state world) :
  arm_the_timeout st
  = match getenv CGREEN_PER_TEST_TIMEOUT_ENVIRONMENT_VARIABLE (mem st) with
    | Some value =>
        if atoi value <=? 0
        then (Exited EXIT_FAILURE st,
              [ev_printf ("invalid value for "
                            ++ CGREEN_PER_TEST_TIMEOUT_ENVIRONMENT_VARIABLE
                            ++ " environment variable: "
                            ++ decimal (atoi value) ++ newline)%string])
        else (Ret tt (with_mem st (alarm_in (atoi value) (mem st))),
              [ev_die_in (atoi value)])
    | None => (Ret tt st, [])
    end.
Proof.
  unfold arm_the_timeout. unfold bind at 1. unfold per_test_timeout_defined.
  destruct (getenv _ (mem st)) as [value|] eqn:G; [|reflexivity].
  unfold bind at 1. rewrite validate_per_test_timeout_value_eq, G.
  destruct (atoi value <=? 0); [reflexivity|].
  unfold bind. rewrite per_test_timeout_value_eq, G.
  reflexivity.
Qed.

(** C6: when the per-test timeout is configured and its value parses to
    zero or to a negative number, both the full-suite run and the named
    run end in [exit] with the failure status, which is not the success
    status; all they have done by then is print the diagnostic, so no
    suite was started and no test was run. The per-test sequence makes
    the same check with the same function: after resetting the
    precision and the mocks it prints the same diagnostic and exits
    with the failure status, before any hook or body. *)
Theorem invalid_timeout_aborts
        (suite : TestSuite world) (name : string) (spec : CgreenTest world)
        (reporter : TestReporter world) (st : state world) (value : string) :
  getenv CGREEN_PER_TEST_TIMEOUT_ENVIRONMENT_VARIABLE (mem st) = Some value ->
  atoi value <= 0 ->
  let diagnostic :=
    ev_printf ("invalid value for "
                 ++ CGREEN_PER_TEST_TIMEOUT_ENVIRONMENT_VARIABLE
                 ++ " environment variable: "
                 ++ decimal (atoi value) ++ newline)%string in
  run_test_suite suite reporter st = (Exited EXIT_FAILURE st, [diagnostic])
  /\ run_single_test suite name reporter st = (Exited EXIT_FAILURE st, [diagnostic])
  /\ EXIT_FAILURE <> EXIT_SUCCESS
  /\ (forall started count, ~ In (ev_start_suite started count) [diagnostic])
  /\ validate_per_test_timeout_value st = (Exited EXIT_FAILURE st, [diagnostic])
  /\ arm_the_timeout st = (Exited EXIT_FAILURE st, [diagnostic])
  /\ (forall st0,
         with_mem st0 (mocks_cleared (significant_figures 8 (mem st0))) = st ->
         run_the_test_code suite spec reporter st0
         = (Exited EXIT_FAILURE st,
            [ev_significant_figures 8; ev_clear_mocks; diagnostic])).
Proof.
  intros G N diagnostic.
  destruct (timeout_check_aborts st value G N) as [D V].
  fold diagnostic in V.
  repeat apply conj.
  - unfold run_test_suite.
    rewrite (bind_continues _ _ _ _ _ _ D).
    rewrite (bind_exits _ _ _ _ _ _ V). reflexivity.
  - unfold run_single_test.
    rewrite (bind_continues _ _ _ _ _ _ D).
    rewrite (bind_exits _ _ _ _ _ _ V). reflexivity.
  - discriminate.
  - intros started count [H|[]]. discriminate H.
  - exact V.
  - rewrite arm_the_timeout_eq, G.
    destruct (atoi value <=? 0) eqn:E; [reflexivity|lia].
  - intros st0 E0.
    unfold run_the_test_code.
    rewrite (bind_continues _ _ _ _ _ _ (external_eq _ _ st0)).
    rewrite (bind_continues _ _ _ _ _ _ (external_eq _ _ _)).
    change (with_mem (with_mem st0 (significant_figures 8 (mem st0)))
              (mocks_cleared (mem (with_mem st0 (significant_figures 8 (mem st0))))))
      with (with_mem st0 (mocks_cleared (significant_figures 8 (mem st0)))).
    rewrite E0.
    assert (A : arm_the_timeout st = (Exited EXIT_FAILURE st, [diagnostic])).
    { rewrite arm_the_timeout_eq, G.
      destruct (atoi value <=? 0) eqn:E; [reflexivity|lia]. }
    rewrite (bind_exits _ _ _ _ _ _ A). reflexivity.
Qed.

(** *** The wrappers *)

Lemma substring_whole (s : string) (n : nat) :
  (String.length s <= n)%nat -> substring 0 n s = s.
Proof.
  revert n. induction s as [|c rest IH]; intros n L.
  - destruct n; reflexivity.
  - destruct n; simpl in L; [lia|].
    simpl. rewrite IH by lia. reflexivity.
Qed.

Lemma exception_message_cut (ph : phase) (detail : string) :
  exception_message ph detail = substring 0 253 (claimed_message ph detail).
Proof. reflexivity. Qed.

Lemma exception_message_label (ph : phase) (detail : string) :
  exists rest,
    exception_message ph detail
    = ("an exception was thrown during " ++ phase_label ph ++ rest)%string.
Proof.
  unfold exception_message, snprintf, sizeof_message.
  destruct ph; cbn; eexists; reflexivity.
Qed.

Lemma try_catch_reports (ph : phase) (spec : CgreenTest world) (body : M world unit)
      (reporter : TestReporter world) (st st1 : state world) (e : thrown)
      (detail : string) (log : list (event world)) :
  context_reporter st = Some reporter ->
  body st = (Thrown e st1, log) ->
  caught e = Some detail ->
  try_catch ph spec body st
  = (Ret tt (with_mem st1 (show_fail reporter (test_filename spec) (test_line spec)
                                     (exception_message ph detail) (mem st1))),
     log ++ [ev_show_fail (test_filename spec) (test_line spec)
                          (exception_message ph detail)]).
Proof.
  intros R B C. unfold try_catch. rewrite B, C, R. reflexivity.
Qed.

Lemma wrapper_eq (ph : phase) (spec : CgreenTest world) :
  wrapper ph spec
  = try_catch ph spec (tell (wrapped_event ph spec) ;; call (wrapped_pointer ph spec)).
Proof. destruct ph; reflexivity. Qed.

Lemma wrapper_reports (ph : phase) (spec : CgreenTest world)
      (reporter : TestReporter world) (st : state world) (body : code world)
      (e : thrown) (detail : string) (w : world) :
  context_reporter st = Some reporter ->
  wrapped_pointer ph spec = function body ->
  body (mem st) = throws e w ->
  caught e = Some detail ->
  wrapper ph spec st
  = (Ret tt (with_mem st (show_fail reporter (test_filename spec) (test_line spec)
                                    (exception_message ph detail) w)),
     [wrapped_event ph spec;
      ev_show_fail (test_filename spec) (test_line spec)
                   (exception_message ph detail)]).
Proof.
  intros R P B C. rewrite wrapper_eq, P.
  rewrite (try_catch_reports ph spec _ reporter st (with_mem st w) e detail
                             [wrapped_event ph spec] R); [reflexivity| |exact C].
  unfold bind, tell, call, foreign. rewrite B. reflexivity.
Qed.

(** C2: when the function a wrapper calls (the setup of the test's
    context in [run_setup_for], the body in [run], the teardown of the
    test's context in [run_teardown_for]) throws an exception object,
    a pointer to one, a string, a pointer to one or a C string, the
    wrapper catches it: it calls the failure callback of the run's
    reporter once, at the file and line of the test, and returns, so
    that whatever follows the wrapper is run next. The message is what
    fits the buffer: the first 253 characters of "an exception was
    thrown during <phase>: [<detail>]", which is the whole text when
    that is no longer than 253 characters. *)
Theorem caught_exception_is_reported
        (ph : phase) (spec : CgreenTest world) (reporter : TestReporter world)
        (st : state world) (body : code world) (e : thrown) (detail : string)
        (w : world) :
  context_reporter st = Some reporter ->
  wrapped_pointer ph spec = function body ->
  body (mem st) = throws e w ->
  caught e = Some detail ->
  let message := exception_message ph detail in
  let report := ev_show_fail (test_filename spec) (test_line spec) message in
  let st' := with_mem st (show_fail reporter (test_filename spec) (test_line spec)
                                    message w) in
  wrapper ph spec st = (Ret tt st', [wrapped_event ph spec; report])
  /\ message = substring 0 253 (claimed_message ph detail)
  /\ ((String.length (claimed_message ph detail) <= 253)%nat ->
      message = claimed_message ph detail)
  /\ (forall next : M world unit,
         (wrapper ph spec ;; next) st
         = (fst (next st'), [wrapped_event ph spec; report] ++ snd (next st'))).
Proof.
  intros R P B C message report st'.
  pose proof (wrapper_reports ph spec reporter st body e detail w R P B C) as W.
  fold message in W. fold report in W. fold st' in W.
  repeat apply conj.
  - exact W.
  - apply exception_message_cut.
  - intros L. subst message. rewrite exception_message_cut.
    apply substring_whole. exact L.
  - intros next.
    exact (bind_continues (wrapper ph spec) (fun _ => next) st st' tt _ W).
Qed.

(** C7: when the function a wrapper calls throws one of the five shapes
    the handlers take, the runner calls the reporter's failure callback
    exactly once for it, with a message that begins "an exception was
    thrown during " followed by the label of the phase ("setup", "test"
    or "teardown"), and returns. The runner itself writes neither
    counter: the memory it leaves is the one that callback made from
    what the throwing code left. With a callback that counts one
    failure per call, the failures counter is one higher; with a
    callback that leaves the exceptions counter alone, the exceptions
    counter is what it was. *)
Theorem caught_exception_calls_show_fail_once
        (ph : phase) (spec : CgreenTest world) (reporter : TestReporter world)
        (st : state world) (body : code world) (e : thrown) (detail : string)
        (w : world) :
  context_reporter st = Some reporter ->
  wrapped_pointer ph spec = function body ->
  body (mem st) = throws e w ->
  caught e = Some detail ->
  exists st' log message,
    wrapper ph spec st = (Ret tt st', log)
    /\ filter is_show_fail log
       = [ev_show_fail (test_filename spec) (test_line spec) message]
    /\ mem st'
       = show_fail reporter (test_filename spec) (test_line spec) message w
    /\ (exists rest,
           message
           = ("an exception was thrown during " ++ phase_label ph ++ rest)%string)
    /\ ((forall f l m w0,
            failures reporter (show_fail reporter f l m w0)
            = failures reporter w0 + 1) ->
        failures reporter (mem st') = failures reporter w + 1)
    /\ ((forall f l m w0,
            exceptions reporter (show_fail reporter f l m w0)
            = exceptions reporter w0) ->
        exceptions reporter (mem st') = exceptions reporter w).
Proof.
  intros R P B C.
  pose proof (wrapper_reports ph spec reporter st body e detail w R P B C) as W.
  eexists. eexists. exists (exception_message ph detail).
  split; [exact W|].
  repeat apply conj.
  - destruct ph; reflexivity.
  - reflexivity.
  - apply exception_message_label.
  - intros F. simpl. apply F.
  - intros F. simpl. apply F.
Qed.

(** *** Hooks of the per-test sequence *)

Lemma hook_calls_app (ph : phase) (l1 l2 : list (event world)) :
  hook_calls ph (l1 ++ l2) = hook_calls ph l1 ++ hook_calls ph l2.
Proof. apply flat_map_app. Qed.

Lemma hooks_of_exactly (ph : phase) (m : M world unit) (l : list hook_source) :
  (forall st, hook_calls ph (snd (m st)) = l) -> hooks_of ph m l.
Proof. intros H st. rewrite H. auto. Qed.

Lemma hooks_of_quiet_then (ph : phase) (m k : M world unit) (l : list hook_source) :
  hooks_of ph m [] -> hooks_of ph k l -> hooks_of ph (m ;; k) l.
Proof.
  intros Hm Hk st. specialize (Hm st).
  rewrite bind_log, bind_result, hook_calls_app.
  destruct (m st) as [[[] st1|e st1|c st1|] l1]; simpl in *;
    destruct Hm as [[Hm|Hm] _]; rewrite Hm; simpl;
    try (split; [left; reflexivity|intros []]).
  all: apply Hk.
Qed.

Lemma hooks_of_then_quiet (ph : phase) (m k : M world unit) (l : list hook_source) :
  hooks_of ph m l -> hooks_of ph k [] -> hooks_of ph (m ;; k) l.
Proof.
  intros Hm Hk st. specialize (Hm st).
  rewrite bind_log, bind_result, hook_calls_app.
  destruct (m st) as [[[] st1|e st1|c st1|] l1]; simpl in *.
  - destruct Hm as [_ Hm]. rewrite (Hm I).
    destruct (Hk st1) as [[Q|Q] _]; rewrite Q, app_nil_r; auto.
  - rewrite app_nil_r. split; [apply Hm|intros []].
  - rewrite app_nil_r. split; [apply Hm|intros []].
  - rewrite app_nil_r. split; [apply Hm|intros []].
Qed.

Lemma call_log (f : funptr world) (st : state world) : snd (call f st) = [].
Proof.
  destruct f as [| |body]; try reflexivity.
  unfold call, foreign. destruct (body (mem st)); reflexivity.
Qed.

Lemma announced_call_log (e : event world) (f : funptr world) (st : state world) :
  snd ((tell e ;; call f) st) = [e].
Proof. rewrite bind_log. simpl. rewrite call_log. reflexivity. Qed.

Lemma try_catch_hook_calls (ph ph' : phase) (spec : CgreenTest world)
      (body : M world unit) (st : state world) :
  hook_calls ph (snd (try_catch ph' spec body st)) = hook_calls ph (snd (body st)).
Proof.
  unfold try_catch.
  destruct (body st) as [[[] st1|e st1|c st1|] log]; try reflexivity.
  destruct (caught e); [|reflexivity].
  destruct (context_reporter st); [|reflexivity].
  simpl. rewrite hook_calls_app. simpl. apply app_nil_r.
Qed.

Lemma external_hooks (ph : phase) (e : event world) (f : world -> world) :
  hook_call ph e = [] -> hooks_of ph (external e f) [].
Proof.
  intros H. apply hooks_of_exactly. intros st.
  rewrite external_eq. simpl. rewrite H. reflexivity.
Qed.

Lemma arm_the_timeout_hooks (ph : phase) : hooks_of ph arm_the_timeout [].
Proof.
  apply hooks_of_exactly. intros st. rewrite arm_the_timeout_eq.
  destruct (getenv _ (mem st)) as [value|]; [|reflexivity].
  destruct (atoi value <=? 0); reflexivity.
Qed.

Lemma run_hooks (ph : phase) (spec : CgreenTest world) : hooks_of ph (run spec) [].
Proof.
  apply hooks_of_exactly. intros st. unfold run.
  rewrite try_catch_hook_calls, announced_call_log. reflexivity.
Qed.

Lemma setup_step_hooks (ph : phase) (suite : TestSuite world) (spec : CgreenTest world) :
  hooks_of ph (setup_step suite spec)
           (if phase_eqb Setup ph
            then at_most_one (resolve_hook suite spec Setup) else []).
Proof.
  apply hooks_of_exactly. intros st.
  unfold setup_step, resolve_hook, has_setup.
  destruct (negb (is_do_nothing (suite_setup suite))).
  - rewrite announced_call_log. simpl. rewrite app_nil_r. reflexivity.
  - destruct (negb (is_NULL (context_setup (test_context spec)))).
    + unfold run_setup_for.
      rewrite try_catch_hook_calls, announced_call_log.
      simpl. rewrite app_nil_r. reflexivity.
    + destruct ph; reflexivity.
Qed.

Lemma teardown_step_hooks (ph : phase) (suite : TestSuite world) (spec : CgreenTest world) :
  hooks_of ph (teardown_step suite spec)
           (if phase_eqb Teardown ph
            then at_most_one (resolve_hook suite spec Teardown) else []).
Proof.
  apply hooks_of_exactly. intros st.
  unfold teardown_step, resolve_hook.
  destruct (negb (is_do_nothing (suite_teardown suite))).
  - rewrite announced_call_log. simpl. rewrite app_nil_r. reflexivity.
  - destruct (negb (is_NULL (context_teardown (test_context spec)))).
    + unfold run_teardown_for.
      rewrite try_catch_hook_calls, announced_call_log.
      simpl. rewrite app_nil_r. reflexivity.
    + destruct ph; reflexivity.
Qed.

Lemma run_the_test_code_hooks (ph : phase) (suite : TestSuite world)
      (spec : CgreenTest world) (reporter : TestReporter world) :
  hooks_of ph (run_the_test_code suite spec reporter)
           (at_most_one (resolve_hook suite spec ph)).
Proof.
  unfold run_the_test_code.
  apply hooks_of_quiet_then; [apply external_hooks; reflexivity|].
  apply hooks_of_quiet_then; [apply external_hooks; reflexivity|].
  apply hooks_of_quiet_then; [apply arm_the_timeout_hooks|].
  pose proof (setup_step_hooks ph suite spec) as HS.
  pose proof (teardown_step_hooks ph suite spec) as HT.
  pose proof (external_hooks ph ev_tally_mocks (mocks_tallied reporter) eq_refl) as HM.
  destruct ph; simpl phase_eqb in HS, HT.
  - apply hooks_of_then_quiet; [exact HS|].
    apply hooks_of_quiet_then; [apply run_hooks|].
    apply hooks_of_quiet_then; [exact HT|exact HM].
  - apply hooks_of_quiet_then; [exact HS|].
    apply hooks_of_quiet_then; [apply run_hooks|].
    apply hooks_of_quiet_then; [exact HT|exact HM].
  - apply hooks_of_quiet_then; [exact HS|].
    apply hooks_of_quiet_then; [apply run_hooks|].
    apply hooks_of_then_quiet; [exact HT|exact HM].
Qed.

(** *** The per-test sequence on the state *)

Lemma and_then_ext {A : Type} (r : result world unit)
      (k1 k2 : state world -> result world A) :
  (forall s, k1 s = k2 s) -> and_then r k1 = and_then r k2.
Proof. intros H. destruct r; simpl; auto. Qed.

Lemma and_then_finished (r : result world unit) :
  and_then r (fun s => Ret tt s) = r.
Proof. destruct r as [[] s| | |]; reflexivity. Qed.

Lemma fst_then (m k : M world unit) (st : state world) :
  fst ((m ;; k) st) = and_then (fst (m st)) (fun s => fst (k s)).
Proof.
  rewrite bind_result. destruct (fst (m st)) as [[] s| | |]; reflexivity.
Qed.

Lemma fst_external (e : event world) (f : world -> world) (st : state world) :
  fst (external e f st) = applied f st.
Proof. reflexivity. Qed.

Lemma fst_call (f : funptr world) (st : state world) :
  fst (call f st) = invoked f st.
Proof.
  destruct f as [| |body]; try reflexivity.
  unfold call, foreign, invoked. destruct (body (mem st)); reflexivity.
Qed.

Lemma fst_announced_call (e : event world) (f : funptr world) (st : state world) :
  fst ((tell e ;; call f) st) = invoked f st.
Proof. rewrite fst_then. simpl. apply fst_call. Qed.

Lemma fst_try_catch (ph : phase) (spec : CgreenTest world) (body : M world unit)
      (st : state world) :
  fst (try_catch ph spec body st)
  = handled ph spec (context_reporter st) (fst (body st)).
Proof.
  unfold try_catch, handled.
  destruct (body st) as [[[] s|e s|c s|] log]; try reflexivity.
  simpl. destruct (caught e); [|reflexivity].
  destruct (context_reporter st); reflexivity.
Qed.

Lemma fst_arm_the_timeout (st : state world) :
  fst (arm_the_timeout st) = timer_outcome st.
Proof.
  rewrite arm_the_timeout_eq. unfold timer_outcome.
  destruct (getenv _ (mem st)) as [value|]; [|reflexivity].
  destruct (atoi value <=? 0); reflexivity.
Qed.

Lemma fst_setup_step (suite : TestSuite world) (spec : CgreenTest world)
      (st : state world) :
  fst (setup_step suite spec st) = hook_outcome suite spec Setup st.
Proof.
  unfold setup_step, hook_outcome, resolve_hook, has_setup.
  destruct (negb (is_do_nothing (suite_setup suite))).
  - apply fst_announced_call.
  - destruct (negb (is_NULL (context_setup (test_context spec)))); [|reflexivity].
    unfold run_setup_for. rewrite fst_try_catch, fst_announced_call. reflexivity.
Qed.

Lemma fst_teardown_step (suite : TestSuite world) (spec : CgreenTest world)
      (st : state world) :
  fst (teardown_step suite spec st) = hook_outcome suite spec Teardown st.
Proof.
  unfold teardown_step, hook_outcome, resolve_hook.
  destruct (negb (is_do_nothing (suite_teardown suite))).
  - apply fst_announced_call.
  - destruct (negb (is_NULL (context_teardown (test_context spec)))); [|reflexivity].
    unfold run_teardown_for. rewrite fst_try_catch, fst_announced_call. reflexivity.
Qed.

Lemma fst_run (spec : CgreenTest world) (st : state world) :
  fst (run spec st)
  = handled Test spec (context_reporter st) (invoked (test_run spec) st).
Proof. unfold run. rewrite fst_try_catch, fst_announced_call. reflexivity. Qed.

Lemma run_the_test_code_outcome
      (suite : TestSuite world) (spec : CgreenTest world)
      (reporter : TestReporter world) (st : state world) :
  fst (run_the_test_code suite spec reporter st) = test_outcome suite spec reporter st.
Proof.
  unfold run_the_test_code, test_outcome.
  rewrite fst_then, fst_external. apply and_then_ext. intros s0.
  rewrite fst_then, fst_external. apply and_then_ext. intros s1.
  rewrite fst_then, fst_arm_the_timeout. apply and_then_ext. intros s2.
  rewrite fst_then, fst_setup_step. apply and_then_ext. intros s3.
  rewrite fst_then, fst_run. apply and_then_ext. intros s4.
  rewrite fst_then, fst_teardown_step. apply and_then_ext. intros s5.
  apply fst_external.
Qed.

Lemma run_test_in_the_current_process_outcome
      (suite : TestSuite world) (test : CgreenTest world)
      (reporter : TestReporter world) (st : state world) :
  fst (run_test_in_the_current_process suite test reporter st)
  = reported_test_outcome suite reporter test st.
Proof.
  unfold run_test_in_the_current_process, reported_test_outcome,
    send_reporter_completion_notification.
  rewrite fst_then, fst_external. apply and_then_ext. intros s1.
  rewrite fst_then, run_the_test_code_outcome. apply and_then_ext. intros s2.
  rewrite fst_then, fst_external. apply and_then_ext. intros s3.
  apply fst_external.
Qed.

(** C3: in the per-test sequence at most one setup hook and at most one
    teardown hook is called, and it is the one the legacy precedence
    rule names: the suite's hook when the suite has one other than the
    canonical no-op, and then not the hook of the test's context;
    otherwise the hook of the test's context when it has one. On the
    state, the sequence is the two resets, the timeout, the resolved
    setup hook run on the memory (the suite's bare, the context's inside
    the handlers, or none), the body, the resolved teardown hook run on
    the memory the body left, and the mock tally; the code of the other
    source is never run. On the log, however the sequence ends, the hook
    calls of a phase are none or the resolved one; when the sequence
    returns they are the resolved one. *)
Theorem one_hook_source_per_phase
        (suite : TestSuite world) (spec : CgreenTest world)
        (reporter : TestReporter world) (st : state world) :
  let out := run_the_test_code suite spec reporter st in
  let setups := hook_calls Setup (snd out) in
  let teardowns := hook_calls Teardown (snd out) in
  (setups = [] \/ setups = at_most_one (resolve_hook suite spec Setup))
  /\ (teardowns = [] \/ teardowns = at_most_one (resolve_hook suite spec Teardown))
  /\ (List.length setups <= 1)%nat
  /\ (List.length teardowns <= 1)%nat
  /\ match fst out with
     | Ret _ _ =>
         setups = at_most_one (resolve_hook suite spec Setup)
         /\ teardowns = at_most_one (resolve_hook suite spec Teardown)
     | _ => True
     end
  /\ fst out = test_outcome suite spec reporter st
  /\ (forall s, fst (setup_step suite spec s) = hook_outcome suite spec Setup s)
  /\ (forall s, fst (teardown_step suite spec s) = hook_outcome suite spec Teardown s)
  /\ (forall s body w,
         suite_setup suite = function body ->
         body (mem s) = returns w ->
         fst (setup_step suite spec s) = Ret tt (with_mem s w))
  /\ (forall s body w,
         suite_setup suite = do_nothing ->
         context_setup (test_context spec) = function body ->
         body (mem s) = returns w ->
         fst (setup_step suite spec s) = Ret tt (with_mem s w))
  /\ (forall s body w,
         suite_teardown suite = function body ->
         body (mem s) = returns w ->
         fst (teardown_step suite spec s) = Ret tt (with_mem s w))
  /\ (forall s body w,
         suite_teardown suite = do_nothing ->
         context_teardown (test_context spec) = function body ->
         body (mem s) = returns w ->
         fst (teardown_step suite spec s) = Ret tt (with_mem s w)).
Proof.
  intros out setups teardowns.
  destruct (run_the_test_code_hooks Setup suite spec reporter st) as [S1 S2].
  destruct (run_the_test_code_hooks Teardown suite spec reporter st) as [T1 T2].
  fold out in S1, S2, T1, T2. fold setups in S1, S2. fold teardowns in T1, T2.
  repeat apply conj.
  - exact S1.
  - exact T1.
  - destruct S1 as [-> | ->]; [simpl; lia|].
    destruct (resolve_hook suite spec Setup); simpl; lia.
  - destruct T1 as [-> | ->]; [simpl; lia|].
    destruct (resolve_hook suite spec Teardown); simpl; lia.
  - destruct (fst out); try exact I.
    split; [apply S2|apply T2]; exact I.
  - apply run_the_test_code_outcome.
  - apply fst_setup_step.
  - apply fst_teardown_step.
  - intros s body w P B. rewrite fst_setup_step.
    unfold hook_outcome, resolve_hook, invoked. rewrite P. simpl. rewrite B. reflexivity.
  - intros s body w P Q B. rewrite fst_setup_step.
    unfold hook_outcome, resolve_hook, invoked. rewrite P, Q. simpl. rewrite B.
    reflexivity.
  - intros s body w P B. rewrite fst_teardown_step.
    unfold hook_outcome, resolve_hook, invoked. rewrite P. simpl. rewrite B. reflexivity.
  - intros s body w P Q B. rewrite fst_teardown_step.
    unfold hook_outcome, resolve_hook, invoked. rewrite P, Q. simpl. rewrite B.
    reflexivity.
Qed.

Lemma bind_skips (m next : M world unit) (st : state world) :
  m st = (Ret tt st, []) -> (m ;; next) st = next st.
Proof.
  intros H. unfold bind. rewrite H. destruct (next st); reflexivity.
Qed.

(** C9: in the per-test sequence, when the suite has no setup of its
    own and the setup pointer of the test's context is null, the setup
    step calls nothing and changes nothing: what follows it (the body)
    starts from the same state, and the whole sequence logs no setup
    hook call. In the same way, when the suite's teardown is the
    canonical no-op and the teardown pointer of the test's context is
    null, the teardown step calls nothing, what follows it (the mock
    tally) starts from the same state, and the whole sequence logs no
    teardown hook call. *)
Theorem null_hooks_are_never_called
        (suite : TestSuite world) (spec : CgreenTest world)
        (reporter : TestReporter world) (st : state world) :
  (has_setup suite = false ->
   context_setup (test_context spec) = NULL ->
   setup_step suite spec st = (Ret tt st, [])
   /\ (forall next : M world unit, (setup_step suite spec ;; next) st = next st)
   /\ (forall st0, hook_calls Setup (snd (run_the_test_code suite spec reporter st0)) = []))
  /\ (suite_teardown suite = do_nothing ->
      context_teardown (test_context spec) = NULL ->
      teardown_step suite spec st = (Ret tt st, [])
      /\ (forall next : M world unit, (teardown_step suite spec ;; next) st = next st)
      /\ (forall st0, hook_calls Teardown (snd (run_the_test_code suite spec reporter st0)) = [])).
Proof.
  split.
  - intros H N.
    assert (E : setup_step suite spec st = (Ret tt st, [])).
    { unfold setup_step. rewrite H, N. reflexivity. }
    repeat apply conj.
    + exact E.
    + intros next. apply bind_skips. exact E.
    + intros st0.
      destruct (run_the_test_code_hooks Setup suite spec reporter st0) as [[Q|Q] _];
        [exact Q|].
      rewrite Q. unfold resolve_hook. unfold has_setup in H. rewrite H, N. reflexivity.
  - intros H N.
    assert (E : teardown_step suite spec st = (Ret tt st, [])).
    { unfold teardown_step. rewrite H, N. reflexivity. }
    repeat apply conj.
    + exact E.
    + intros next. apply bind_skips. exact E.
    + intros st0.
      destruct (run_the_test_code_hooks Teardown suite spec reporter st0) as [[Q|Q] _];
        [exact Q|].
      rewrite Q. unfold resolve_hook. rewrite H, N. reflexivity.
Qed.

(** *** The tree *)

Section TestSuite_induction.

Variable P : TestSuite world -> Prop.

Hypothesis step :
  forall name filename line setup teardown tests,
    (forall entry_name nested, In (test_suite entry_name nested) tests -> P nested) ->
    P (Suite name filename line setup teardown tests).

Lemma TestSuite_nested_ind : forall suite, P suite.
Proof.
  fix IH 1. intros [name filename line setup teardown tests].
  apply step.
  induction tests as [|entry rest IHrest]; intros entry_name nested H.
  - destruct H.
  - destruct H as [E|H].
    + destruct entry as [|n c]; [discriminate E|].
      injection E as _ <-. apply IH.
    + exact (IHrest entry_name nested H).
Qed.

End TestSuite_induction.

Lemma has_test_eq (suite : TestSuite world) (name : string) :
  has_test suite name
  = existsb (fun entry =>
               match entry with
               | test_function entry_name _ => String.eqb entry_name name
               | test_suite _ nested => has_test nested name
               end) (suite_tests suite).
Proof.
  destruct suite as [n f l su td tests]. simpl.
  induction tests as [|[en t|en c] rest IH]; simpl; [reflexivity| |];
    rewrite IH; reflexivity.
Qed.

Lemma subsuites_child (nested suite : TestSuite world) :
  child_of nested suite -> In nested (subsuites suite).
Proof.
  intros [entry_name H]. destruct suite as [n f l su td tests]. simpl in *.
  apply in_flat_map. exists (test_suite entry_name nested).
  split; [exact H|left; reflexivity].
Qed.

Lemma subsuites_below (deep nested suite : TestSuite world) :
  child_of nested suite -> In deep (subsuites nested) -> In deep (subsuites suite).
Proof.
  intros [entry_name H] D. destruct suite as [n f l su td tests]. simpl in *.
  apply in_flat_map. exists (test_suite entry_name nested).
  split; [exact H|right; exact D].
Qed.

Lemma subsuites_cases (deep suite : TestSuite world) :
  In deep (subsuites suite) ->
  exists nested, child_of nested suite /\ (deep = nested \/ In deep (subsuites nested)).
Proof.
  destruct suite as [n f l su td tests]. simpl. intros H.
  apply in_flat_map in H. destruct H as ([en t|en c] & H1 & H2); [destruct H2|].
  exists c. split; [exists en; exact H1|].
  destruct H2 as [<-|H2]; auto.
Qed.

Lemma has_test_child (nested suite : TestSuite world) (name : string) :
  child_of nested suite -> has_test nested name = true -> has_test suite name = true.
Proof.
  intros [entry_name H] T. rewrite has_test_eq. apply existsb_exists.
  exists (test_suite entry_name nested). split; [exact H|exact T].
Qed.

Lemma has_test_below (name : string) (suite : TestSuite world) :
  forall deep, In deep (subsuites suite) ->
               has_test deep name = true -> has_test suite name = true.
Proof.
  induction suite as [n f l su td tests IH] using TestSuite_nested_ind.
  intros deep D T.
  apply subsuites_cases in D. destruct D as (nested & C & D).
  apply (has_test_child nested); [exact C|].
  destruct D as [<-|D]; [exact T|].
  destruct C as [en C]. exact (IH en nested C deep D T).
Qed.

Lemma no_match (name : string) (suite : TestSuite world) :
  has_test suite name = false -> all_matches suite name = [].
Proof.
  induction suite as [n f l su td tests IH] using TestSuite_nested_ind.
  rewrite has_test_eq. simpl. intros H.
  induction tests as [|entry rest IHrest]; [reflexivity|].
  simpl in H. apply orb_false_iff in H. destruct H as [H1 H2].
  simpl. rewrite IHrest; [|intros en c I; apply (IH en c); right; exact I|exact H2].
  rewrite app_nil_r.
  destruct entry as [en t|en c].
  - rewrite H1. reflexivity.
  - apply (IH en c); [left; reflexivity|exact H1].
Qed.

Lemma run_named_test_eq (suite : TestSuite world) (name : string)
      (reporter : TestReporter world) :
  run_named_test suite name reporter
  = (external (ev_start_suite suite (count_tests suite))
              (start_suite reporter (suite_name suite) (count_tests suite)) ;;
     for_each (named_entry suite name reporter) (suite_tests suite) ;;
     send_reporter_completion_notification reporter ;;
     external (ev_finish_suite suite)
              (finish_suite reporter (suite_filename suite) (suite_line suite))).
Proof. destruct suite; reflexivity. Qed.

(** *** Every match of a named run is run *)

Lemma try_catch_test_level (ph : phase) (spec : CgreenTest world)
      (body : M world unit) (st : state world) :
  filter test_level (snd (try_catch ph spec body st))
  = filter test_level (snd (body st)).
Proof.
  unfold try_catch.
  destruct (body st) as [[[] st1|e st1|c st1|] log]; try reflexivity.
  destruct (caught e); [|reflexivity].
  destruct (context_reporter st); [|reflexivity].
  simpl. rewrite filter_app. simpl. apply app_nil_r.
Qed.

Lemma setup_step_test_level (suite : TestSuite world) (spec : CgreenTest world)
      (st : state world) :
  filter test_level (snd (setup_step suite spec st)) = [].
Proof.
  unfold setup_step.
  destruct (has_setup suite).
  - rewrite announced_call_log. reflexivity.
  - destruct (negb (is_NULL (context_setup (test_context spec)))); [|reflexivity].
    unfold run_setup_for. rewrite try_catch_test_level, announced_call_log.
    reflexivity.
Qed.

Lemma teardown_step_test_level (suite : TestSuite world) (spec : CgreenTest world)
      (st : state world) :
  filter test_level (snd (teardown_step suite spec st)) = [].
Proof.
  unfold teardown_step.
  destruct (negb (is_do_nothing (suite_teardown suite))).
  - rewrite announced_call_log. reflexivity.
  - destruct (negb (is_NULL (context_teardown (test_context spec)))); [|reflexivity].
    unfold run_teardown_for. rewrite try_catch_test_level, announced_call_log.
    reflexivity.
Qed.

Lemma run_test_level (spec : CgreenTest world) (st : state world) :
  filter test_level (snd (run spec st)) = [ev_body spec].
Proof.
  unfold run. rewrite try_catch_test_level, announced_call_log. reflexivity.
Qed.

Lemma arm_the_timeout_test_level (st : state world) :
  filter test_level (snd (arm_the_timeout st)) = [].
Proof.
  rewrite arm_the_timeout_eq.
  destruct (getenv _ (mem st)) as [value|]; [|reflexivity].
  destruct (atoi value <=? 0); reflexivity.
Qed.

(** Splits a hypothesis "the sequence returned" into its steps. *)
Ltac split_sequence H :=
  let a := fresh "a" in
  let st1 := fresh "st" in
  let l1 := fresh "log" in
  let l2 := fresh "log" in
  let H1 := fresh "Step" in
  apply bind_returns in H;
  destruct H as (a & st1 & l1 & l2 & H1 & H & ->);
  destruct a.

Lemma logged (A : Type) (x : result world A * list (event world))
      (r : result world A) (log : list (event world)) :
  x = (r, log) -> snd x = log.
Proof. intros ->. reflexivity. Qed.

Lemma run_the_test_code_test_level
      (suite : TestSuite world) (spec : CgreenTest world)
      (reporter : TestReporter world) (st st' : state world)
      (log : list (event world)) :
  run_the_test_code suite spec reporter st = (Ret tt st', log) ->
  filter test_level log = [ev_body spec].
Proof.
  unfold run_the_test_code. intros H.
  split_sequence H. split_sequence H. split_sequence H.
  split_sequence H. split_sequence H. split_sequence H.
  rewrite external_eq in Step, Step0, H.
  inversion Step; subst. inversion Step0; subst. inversion H; subst.
  apply logged in Step1, Step2, Step3, Step4.
  repeat rewrite filter_app.
  rewrite <- Step1, <- Step2, <- Step3, <- Step4.
  rewrite arm_the_timeout_test_level, setup_step_test_level,
    run_test_level, teardown_step_test_level.
  reflexivity.
Qed.

Lemma run_test_in_the_current_process_test_level
      (suite : TestSuite world) (test : CgreenTest world)
      (reporter : TestReporter world) (st st' : state world)
      (log : list (event world)) :
  run_test_in_the_current_process suite test reporter st = (Ret tt st', log) ->
  filter test_level log = reported_run test.
Proof.
  unfold run_test_in_the_current_process, send_reporter_completion_notification.
  intros H.
  split_sequence H. split_sequence H. split_sequence H.
  rewrite external_eq in Step, Step1, H.
  inversion Step; subst. inversion Step1; subst. inversion H; subst.
  apply run_the_test_code_test_level in Step0.
  repeat rewrite filter_app. rewrite Step0. reflexivity.
Qed.

Lemma for_each_returns {A B : Type} (body : A -> M world unit)
      (observe : list (event world) -> list B) (expected : A -> list B)
      (entries : list A) :
  observe [] = [] ->
  (forall l1 l2, observe (l1 ++ l2) = observe l1 ++ observe l2) ->
  (forall entry, In entry entries ->
                 forall st st' log, body entry st = (Ret tt st', log) ->
                                    observe log = expected entry) ->
  forall st st' log,
    for_each body entries st = (Ret tt st', log) ->
    observe log = flat_map expected entries.
Proof.
  intros O0 Oapp. induction entries as [|entry rest IH]; intros Hbody st st' log H.
  - inversion H; subst. exact O0.
  - simpl in H. split_sequence H.
    rewrite Oapp. simpl. f_equal.
    + eapply Hbody; [left; reflexivity|exact Step].
    + eapply IH; [|exact H]. intros e I. apply Hbody. right. exact I.
Qed.

Lemma flat_map_twice {A B C : Type} (f : B -> list C) (g : A -> list B) (l : list A) :
  flat_map f (flat_map g l) = flat_map (fun x => flat_map f (g x)) l.
Proof.
  induction l as [|x rest IH]; [reflexivity|].
  simpl. rewrite flat_map_app, IH. reflexivity.
Qed.

Lemma named_entry_suite_returns
      (suite nested : TestSuite world) (entry_name name : string)
      (reporter : TestReporter world) (st st' : state world)
      (log : list (event world)) :
  has_test nested name = true ->
  named_entry suite name reporter (test_suite entry_name nested) st = (Ret tt st', log) ->
  exists st1 st2 inside,
    run_named_test nested name reporter st1 = (Ret tt st2, inside)
    /\ log = ev_suite_hook suite Setup (around_suite nested)
             :: inside ++ [ev_suite_hook suite Teardown (around_suite nested)].
Proof.
  intros T H. simpl in H. rewrite T in H.
  split_sequence H. split_sequence H. split_sequence H. split_sequence H.
  inversion Step; subst.
  apply logged in Step0. rewrite call_log in Step0. subst.
  apply logged in H. rewrite call_log in H. subst.
  inversion Step2; subst.
  do 3 eexists. split; [exact Step1|].
  reflexivity.
Qed.

Lemma run_named_test_test_level
      (suite : TestSuite world) (name : string) (reporter : TestReporter world)
      (st st' : state world) (log : list (event world)) :
  run_named_test suite name reporter st = (Ret tt st', log) ->
  filter test_level log = flat_map reported_run (all_matches suite name).
Proof.
  revert st st' log.
  induction suite as [n f l su td tests IH] using TestSuite_nested_ind.
  intros st st' log H.
  rewrite run_named_test_eq in H.
  unfold send_reporter_completion_notification in H.
  split_sequence H. split_sequence H. split_sequence H.
  rewrite external_eq in Step, Step1, H.
  inversion Step; subst. inversion Step1; subst. inversion H; subst.
  repeat rewrite filter_app. simpl. rewrite app_nil_r.
  simpl suite_tests in Step0.
  rewrite flat_map_twice.
  eapply (for_each_returns _ (filter test_level)); [reflexivity|apply filter_app| |exact Step0].
  intros [en t|en c] I s s' lg E.
  - simpl in E. destruct (String.eqb en name).
    + apply run_test_in_the_current_process_test_level in E.
      rewrite E. reflexivity.
    + inversion E; subst. reflexivity.
  - destruct (has_test c name) eqn:T.
    + apply named_entry_suite_returns in E; [|exact T].
      destruct E as (s1 & s2 & inside & E & ->).
      simpl. rewrite filter_app. simpl. rewrite app_nil_r.
      exact (IH en c I s1 s2 inside E).
    + simpl in E. rewrite T in E. inversion E; subst.
      rewrite (no_match name c T). reflexivity.
Qed.

(** *** The named traversal on the state *)

Lemma fst_for_each {A : Type} (body : A -> M world unit) (entries : list A)
      (st : state world) :
  fst (for_each body entries st) = in_turn (fun entry s => fst (body entry s)) entries st.
Proof.
  revert st. induction entries as [|entry rest IH]; intros st; [reflexivity|].
  simpl. rewrite fst_then. apply and_then_ext. exact IH.
Qed.

Lemma in_turn_ext {A : Type} (f g : A -> state world -> result world unit)
      (l : list A) :
  (forall x, In x l -> forall s, f x s = g x s) ->
  forall st, in_turn f l st = in_turn g l st.
Proof.
  induction l as [|x rest IH]; intros H st; [reflexivity|].
  simpl. rewrite (H x (or_introl eq_refl)). apply and_then_ext.
  apply IH. intros y I. apply H. right. exact I.
Qed.

Lemma named_outcome_eq (suite : TestSuite world) (name : string)
      (reporter : TestReporter world) (st : state world) :
  named_outcome suite name reporter st
  = and_then (applied (start_suite reporter (suite_name suite) (count_tests suite)) st)
             (fun s1 =>
    and_then (in_turn (named_entry_outcome suite name reporter) (suite_tests suite) s1)
             (fun s2 =>
    and_then (applied (completion_notification reporter) s2) (fun s3 =>
    applied (finish_suite reporter (suite_filename suite) (suite_line suite)) s3))).
Proof. destruct suite; reflexivity. Qed.

Lemma fst_named_entry_suite (owner nested : TestSuite world) (entry_name name : string)
      (reporter : TestReporter world) (st : state world) :
  has_test nested name = true ->
  fst (named_entry owner name reporter (test_suite entry_name nested) st)
  = and_then (invoked (suite_setup owner) st) (fun a =>
    and_then (fst (run_named_test nested name reporter a)) (fun b =>
    invoked (suite_teardown owner) b)).
Proof.
  intros T. simpl. rewrite T.
  rewrite bind_result. simpl.
  rewrite bind_result, fst_call.
  destruct (invoked (suite_setup owner) st) as [[] a| | |]; simpl; try reflexivity.
  rewrite bind_result.
  destruct (fst (run_named_test nested name reporter a)) as [[] b| | |];
    simpl; try reflexivity.
  rewrite bind_result. simpl. apply fst_call.
Qed.

Lemma run_named_test_outcome (name : string) (reporter : TestReporter world)
      (suite : TestSuite world) :
  forall st,
    fst (run_named_test suite name reporter st) = named_outcome suite name reporter st.
Proof.
  induction suite as [n f l su td tests IH] using TestSuite_nested_ind.
  intros st. rewrite run_named_test_eq, named_outcome_eq.
  unfold send_reporter_completion_notification.
  rewrite fst_then, fst_external. apply and_then_ext. intros s1.
  rewrite fst_then, fst_for_each. simpl suite_tests.
  rewrite (in_turn_ext _ (named_entry_outcome (Suite n f l su td tests) name reporter)).
  - apply and_then_ext. intros s2.
    rewrite fst_then, fst_external. apply and_then_ext. intros s3.
    apply fst_external.
  - intros [en t|en c] I s.
    + simpl. destruct (String.eqb en name); [|reflexivity].
      apply run_test_in_the_current_process_outcome.
    + destruct (has_test c name) eqn:T.
      * rewrite (fst_named_entry_suite _ _ _ _ _ _ T). simpl. rewrite T.
        apply and_then_ext. intros a. rewrite (IH en c I a). reflexivity.
      * simpl. rewrite T. reflexivity.
Qed.

Lemma in_turn_matches (suite : TestSuite world) (name : string)
      (reporter : TestReporter world) (entries : list (UnitTest world)) :
  forallb (fun entry => match entry with
                        | test_function _ _ => true
                        | test_suite _ _ => false
                        end) entries = true ->
  forall st,
    in_turn (named_entry_outcome suite name reporter) entries st
    = in_turn (reported_test_outcome suite reporter)
              (flat_map (fun entry =>
                           match entry with
                           | test_function entry_name test =>
                               if String.eqb entry_name name then [test] else []
                           | test_suite _ nested => all_matches nested name
                           end) entries) st.
Proof.
  induction entries as [|[en t|en c] rest IH]; intros H st; [reflexivity| |].
  - simpl in H. simpl. destruct (String.eqb en name); simpl.
    + apply and_then_ext. apply IH. exact H.
    + apply IH. exact H.
  - discriminate H.
Qed.

(** C10: a named run executes every test entry that carries the target
    name, in declared order, depth first, each as a test of its own; the
    loop over the entries of a suite does not stop at the first match.
    On the state, the traversal is [start_suite], then entry by entry
    the matching tests run in turn (each: [start_test], the per-test
    sequence with its body run on the memory, the completion
    notification, [finish_test]) and the nested suites that hold the
    name, then the completion notification and [finish_suite]; for a
    suite whose entries are all tests this is every match in turn, each
    from the memory the one before it left. On the log, when the run
    returns, the part that is about tests is, for each match in turn,
    its [start_test], the call of its body and its [finish_test]. *)
Theorem every_match_is_run
        (suite : TestSuite world) (name : string) (reporter : TestReporter world)
        (st : state world) :
  let out := run_named_test suite name reporter st in
  fst out = named_outcome suite name reporter st
  /\ (only_tests suite = true ->
      fst out
      = and_then (applied (start_suite reporter (suite_name suite) (count_tests suite)) st)
                 (fun s1 =>
        and_then (in_turn (reported_test_outcome suite reporter)
                          (all_matches suite name) s1)
                 (fun s2 =>
        and_then (applied (completion_notification reporter) s2) (fun s3 =>
        applied (finish_suite reporter (suite_filename suite) (suite_line suite)) s3))))
  /\ (forall test s,
         fst (run_test_in_the_current_process suite test reporter s)
         = reported_test_outcome suite reporter test s)
  /\ (forall st' log,
         out = (Ret tt st', log) ->
         filter test_level log = flat_map reported_run (all_matches suite name)).
Proof.
  intros out. repeat apply conj.
  - apply run_named_test_outcome.
  - intros O. subst out. rewrite run_named_test_outcome, named_outcome_eq.
    apply and_then_ext. intros s1.
    destruct suite as [n f l su td tests]. unfold only_tests in O. simpl in O.
    simpl suite_tests. simpl all_matches.
    rewrite (in_turn_matches _ name reporter tests O). reflexivity.
  - intros test s. apply run_test_in_the_current_process_outcome.
  - intros st' log H. exact (run_named_test_test_level suite name reporter st st' log H).
Qed.

(** *** Which suites a named run enters *)

Lemma Forall_bind {A B : Type} (P : event world -> Prop)
      (m : M world A) (k : A -> M world B) (st : state world) :
  Forall P (snd (m st)) ->
  (forall a st1, Forall P (snd (k a st1))) ->
  Forall P (snd (bind m k st)).
Proof.
  intros Hm Hk. rewrite bind_log. apply Forall_app. split; [exact Hm|].
  destruct (fst (m st)); [apply Hk|constructor..].
Qed.

Lemma Forall_for_each {A : Type} (P : event world -> Prop)
      (body : A -> M world unit) (entries : list A) :
  (forall entry, In entry entries -> forall st, Forall P (snd (body entry st))) ->
  forall st, Forall P (snd (for_each body entries st)).
Proof.
  induction entries as [|entry rest IH]; intros H st.
  - constructor.
  - simpl. apply Forall_bind.
    + apply H. left. reflexivity.
    + intros _ st1. apply IH. intros e I. apply H. right. exact I.
Qed.

Lemma Forall_try_catch (P : event world -> Prop) (ph : phase)
      (spec : CgreenTest world) (body : M world unit) (st : state world) :
  (forall filename line message, P (ev_show_fail filename line message)) ->
  Forall P (snd (body st)) ->
  Forall P (snd (try_catch ph spec body st)).
Proof.
  intros Hfail Hbody. unfold try_catch.
  destruct (body st) as [[[] st1|e st1|c st1|] log]; try exact Hbody.
  destruct (caught e); [|exact Hbody].
  destruct (context_reporter st); [|exact Hbody].
  simpl. apply Forall_app. split; [exact Hbody|].
  constructor; [apply Hfail|constructor].
Qed.

Lemma Forall_announced_call (P : event world -> Prop) (e : event world)
      (f : funptr world) (st : state world) :
  P e -> Forall P (snd ((tell e ;; call f) st)).
Proof. intros H. rewrite announced_call_log. constructor; [exact H|constructor]. Qed.

Lemma Forall_external (P : event world -> Prop) (e : event world)
      (f : world -> world) (st : state world) :
  P e -> Forall P (snd (external e f st)).
Proof. intros H. rewrite external_eq. constructor; [exact H|constructor]. Qed.

Lemma run_the_test_code_neutral
      (suite : TestSuite world) (spec : CgreenTest world)
      (reporter : TestReporter world) (st : state world) :
  Forall (neutral suite) (snd (run_the_test_code suite spec reporter st)).
Proof.
  unfold run_the_test_code.
  apply Forall_bind; [apply Forall_external; exact I|intros _ s1].
  apply Forall_bind; [apply Forall_external; exact I|intros _ s2].
  apply Forall_bind.
  { rewrite arm_the_timeout_eq.
    destruct (getenv _ (mem s2)) as [value|]; [|constructor].
    destruct (atoi value <=? 0); repeat constructor. }
  intros _ s3. apply Forall_bind.
  { unfold setup_step. destruct (has_setup suite).
    - apply Forall_announced_call. reflexivity.
    - destruct (negb (is_NULL (context_setup (test_context spec)))); [|constructor].
      apply Forall_try_catch; [intros; exact I|].
      apply Forall_announced_call. exact I. }
  intros _ s4. apply Forall_bind.
  { apply Forall_try_catch; [intros; exact I|].
    apply Forall_announced_call. exact I. }
  intros _ s5. apply Forall_bind.
  { unfold teardown_step. destruct (negb (is_do_nothing (suite_teardown suite))).
    - apply Forall_announced_call. reflexivity.
    - destruct (negb (is_NULL (context_teardown (test_context spec)))); [|constructor].
      apply Forall_try_catch; [intros; exact I|].
      apply Forall_announced_call. exact I. }
  intros _ s6. apply Forall_external. exact I.
Qed.

Lemma run_test_in_the_current_process_neutral
      (suite : TestSuite world) (test : CgreenTest world)
      (reporter : TestReporter world) (st : state world) :
  Forall (neutral suite)
         (snd (run_test_in_the_current_process suite test reporter st)).
Proof.
  unfold run_test_in_the_current_process, send_reporter_completion_notification.
  apply Forall_bind; [apply Forall_external; exact I|intros _ s1].
  apply Forall_bind; [apply run_the_test_code_neutral|intros _ s2].
  apply Forall_bind; [apply Forall_external; exact I|intros _ s3].
  apply Forall_external. exact I.
Qed.

Lemma neutral_allowed (root : TestSuite world) (name : string) (e : event world) :
  neutral root e -> allowed root name e.
Proof.
  destruct e as [| | | | | | | | | |owner ph [nested|spec]| | | | | |];
    simpl; intros H; try exact I; try (destruct H; fail).
  left. exact H.
Qed.

Lemma allowed_from_child (root nested : TestSuite world) (name : string)
      (e : event world) :
  child_of nested root ->
  has_test nested name = true ->
  allowed nested name e -> allowed root name e.
Proof.
  intros C T.
  destruct e as [| | |started count| | | | | | |owner ph [inner|spec]| | | | | |];
    simpl; try (intros; exact I).
  - intros [->|[D H]].
    + right. split; [apply subsuites_child; exact C|exact T].
    + right. split; [exact (subsuites_below _ _ _ C D)|exact H].
  - intros ([->|D] & H1 & H2); (split; [right|split; assumption]).
    + apply subsuites_child; exact C.
    + exact (subsuites_below _ _ _ C D).
  - intros [->|[D H]].
    + right. split; [apply subsuites_child; exact C|exact T].
    + right. split; [exact (subsuites_below _ _ _ C D)|exact H].
Qed.

Lemma run_named_test_allowed (name : string) (reporter : TestReporter world)
      (root : TestSuite world) :
  forall st, Forall (allowed root name) (snd (run_named_test root name reporter st)).
Proof.
  induction root as [n f l su td tests IH] using TestSuite_nested_ind.
  intros st. rewrite run_named_test_eq.
  unfold send_reporter_completion_notification.
  apply Forall_bind; [apply Forall_external; left; reflexivity|intros _ s1].
  apply Forall_bind;
    [|intros _ s2; apply Forall_bind;
      [apply Forall_external; exact I|intros _ s3; apply Forall_external; exact I]].
  apply Forall_for_each. simpl suite_tests.
  intros [en t|en c] In_tests s.
  - simpl. destruct (String.eqb en name); [|constructor].
    eapply Forall_impl; [|apply run_test_in_the_current_process_neutral].
    intros e. apply neutral_allowed.
  - simpl. destruct (has_test c name) eqn:T; [|constructor].
    assert (C : child_of c (Suite n f l su td tests)) by (exists en; exact In_tests).
    apply Forall_bind.
    { repeat constructor. exact C. exact T. }
    intros _ s1'. apply Forall_bind.
    { rewrite call_log. constructor. }
    intros _ s2'. apply Forall_bind.
    { eapply Forall_impl; [|apply (IH en c In_tests)].
      intros e. apply allowed_from_child; assumption. }
    intros _ s3'. apply Forall_announced_call.
    simpl. repeat split; auto.
Qed.

Lemma for_each_visits {A : Type} (body : A -> M world unit) (entries : list A)
      (entry : A) :
  In entry entries ->
  forall st st' log,
    for_each body entries st = (Ret tt st', log) ->
    exists st1 st2 before during after,
      body entry st1 = (Ret tt st2, during)
      /\ log = before ++ during ++ after.
Proof.
  induction entries as [|first rest IH]; intros I st st' log H; [destruct I|].
  simpl in H. split_sequence H.
  destruct I as [->|I].
  - do 2 eexists. exists []. do 2 eexists. split; [exact Step|reflexivity].
  - destruct (IH I _ _ _ H) as (s1 & s2 & b & d & a & E & ->).
    exists s1, s2. eexists. exists d, a. split; [exact E|].
    rewrite app_assoc. reflexivity.
Qed.

Lemma bracketed_within (owner nested : TestSuite world) (name : string)
      (reporter : TestReporter world) (before log after : list (event world)) :
  bracketed owner nested name reporter log ->
  bracketed owner nested name reporter (before ++ log ++ after).
Proof.
  intros (b & inside & a & s1 & s2 & -> & E).
  exists (before ++ b), inside, (a ++ after), s1, s2.
  split; [|exact E].
  repeat rewrite <- app_assoc. simpl. f_equal. f_equal. f_equal.
  rewrite <- app_assoc. reflexivity.
Qed.

Lemma run_named_test_brackets (name : string) (reporter : TestReporter world)
      (root : TestSuite world) :
  forall st st' log,
    run_named_test root name reporter st = (Ret tt st', log) ->
    forall owner nested,
      owner = root \/ In owner (subsuites root) ->
      child_of nested owner ->
      has_test nested name = true ->
      bracketed owner nested name reporter log.
Proof.
  induction root as [n f l su td tests IH] using TestSuite_nested_ind.
  intros st st' log H owner nested O C T.
  rewrite run_named_test_eq in H.
  apply bind_returns in H. destruct H as ([] & sa & log0 & rest0 & _ & H & ->).
  apply bind_returns in H. destruct H as ([] & sb & log1 & log2 & Step0 & _ & ->).
  simpl suite_tests in Step0.
  assert (V : forall en c, In (test_suite en c) tests -> has_test c name = true ->
              exists inside s1 s2 before after,
                run_named_test c name reporter s1 = (Ret tt s2, inside)
                /\ log1 = before
                            ++ (ev_suite_hook (Suite n f l su td tests) Setup (around_suite c)
                                  :: inside
                                  ++ [ev_suite_hook (Suite n f l su td tests) Teardown
                                                    (around_suite c)])
                            ++ after).
  { intros en c I Tc.
    destruct (for_each_visits _ _ _ I _ _ _ Step0) as (s1 & s2 & b & d & a & E & ->).
    apply named_entry_suite_returns in E; [|exact Tc].
    destruct E as (s3 & s4 & inside & E & ->).
    exists inside, s3, s4, b, a. split; [exact E|reflexivity]. }
  destruct O as [->|O].
  - destruct C as [en C]. simpl in C.
    destruct (V en nested C T) as (inside & s1 & s2 & b & a & E & ->).
    exists (log0 ++ b), inside, (a ++ log2), s1, s2.
    split; [|exact E].
    repeat rewrite <- app_assoc. simpl. repeat rewrite <- app_assoc. reflexivity.
  - apply subsuites_cases in O. destruct O as (c & [en Cc] & O). simpl in Cc.
    assert (Tc : has_test c name = true).
    { destruct O as [<-|O].
      - exact (has_test_child _ _ _ C T).
      - apply (has_test_below name c owner O). exact (has_test_child _ _ _ C T). }
    destruct (V en c Cc Tc) as (inside & s1 & s2 & b & a & E & ->).
    assert (B : bracketed owner nested name reporter inside).
    { apply (IH en c Cc s1 s2 inside E owner nested); [|exact C|exact T].
      destruct O as [->|O]; [left; reflexivity|right; exact O]. }
    apply bracketed_within. apply bracketed_within.
    change (bracketed owner nested name reporter
              ([ev_suite_hook (Suite n f l su td tests) Setup (around_suite c)]
                 ++ inside
                 ++ [ev_suite_hook (Suite n f l su td tests) Teardown (around_suite c)])).
    apply bracketed_within. exact B.
Qed.

(** C4: in a named run a nested suite is visited (the setup of the
    suite it is an entry of, its own named run, that suite's teardown)
    if and only if the target name occurs in its subtree. However the
    run ends, a suite other than the root is started only if it holds
    the target name, a hook is called around a nested suite only if
    that suite holds the target name, and no suite other than the root
    has any of its hooks called, around a suite or for a test, unless it
    holds the target name; when the run returns, every nested suite
    below the root that holds the target name has been visited, in that
    order: setup, its own run from start to return, teardown. On the
    state, the traversal is the one that, for a nested suite that holds
    the name, runs the enclosing suite's setup on the memory, then the
    nested suite's own traversal from the memory the setup left, then
    the enclosing suite's teardown on the memory that traversal left,
    and that for a nested suite without a match leaves the state as it
    is and logs nothing. *)
Theorem suites_without_a_match_are_skipped
        (root : TestSuite world) (name : string) (reporter : TestReporter world)
        (st : state world) :
  let out := run_named_test root name reporter st in
  (forall started count,
      In (ev_start_suite started count) (snd out) ->
      started = root \/ (In started (subsuites root) /\ has_test started name = true))
  /\ (forall owner ph nested,
         In (ev_suite_hook owner ph (around_suite nested)) (snd out) ->
         (owner = root \/ In owner (subsuites root))
         /\ child_of nested owner
         /\ has_test nested name = true)
  /\ (forall owner ph site,
         In (ev_suite_hook owner ph site) (snd out) ->
         owner = root \/ (In owner (subsuites root) /\ has_test owner name = true))
  /\ (returned (fst out) ->
      forall owner nested,
        owner = root \/ In owner (subsuites root) ->
        child_of nested owner ->
        has_test nested name = true ->
        bracketed owner nested name reporter (snd out)
        /\ In (ev_start_suite nested (count_tests nested)) (snd out))
  /\ fst out = named_outcome root name reporter st
  /\ (forall owner entry_name nested s,
         has_test nested name = false ->
         named_entry owner name reporter (test_suite entry_name nested) s
         = (Ret tt s, []))
  /\ (forall owner entry_name nested s,
         has_test nested name = true ->
         fst (named_entry owner name reporter (test_suite entry_name nested) s)
         = and_then (invoked (suite_setup owner) s) (fun a =>
           and_then (fst (run_named_test nested name reporter a)) (fun b =>
           invoked (suite_teardown owner) b))).
Proof.
  intros out.
  pose proof (run_named_test_allowed name reporter root st) as A.
  fold out in A. rewrite Forall_forall in A.
  repeat apply conj.
  - intros started count I. exact (A _ I).
  - intros owner ph nested I. exact (A _ I).
  - intros owner ph [nested|spec] I; [|exact (A _ I)].
    destruct (A _ I) as ([->|O] & C & T); [left; reflexivity|right].
    split; [exact O|exact (has_test_child _ _ _ C T)].
  - intros R owner nested O C T.
    destruct out as [[[] st'| | |] log] eqn:E; try destruct R.
    pose proof (run_named_test_brackets name reporter root st st' log E
                                        owner nested O C T) as B.
    split; [exact B|].
    destruct B as (b & inside & a & s1 & s2 & -> & B). simpl.
    rewrite run_named_test_eq in B. split_sequence B.
    rewrite external_eq in Step. inversion Step; subst.
    apply in_or_app. right. right. left. reflexivity.
  - apply run_named_test_outcome.
  - intros owner entry_name nested s T. simpl. rewrite T. reflexivity.
  - intros owner entry_name nested s T. apply fst_named_entry_suite. exact T.
Qed.

(* ------------------------------------------------------------------ *)
(** *** The full run follows the tree *)

Lemma is_prefix_app {A : Type} (front l whole : list A) :
  is_prefix l whole -> is_prefix (front ++ l) (front ++ whole).
Proof. intros [rest ->]. exists rest. apply app_assoc. Qed.

Lemma is_prefix_shorter {A : Type} (l whole more : list A) :
  is_prefix l whole -> is_prefix l (whole ++ more).
Proof. intros [rest ->]. exists (rest ++ more). symmetry. apply app_assoc. Qed.


Lemma follows_exactly (m : M world unit) (l : list (event world)) :
  (forall st, snd (m st) = l) -> follows m l.
Proof.
  intros H st. rewrite H. split; [exists []; symmetry; apply app_nil_r|reflexivity].
Qed.

Lemma follows_then (m k : M world unit) (l1 l2 : list (event world)) :
  follows m l1 -> follows k l2 -> follows (m ;; k) (l1 ++ l2).
Proof.
  intros Hm Hk st. destruct (Hm st) as [P R].
  rewrite bind_log, bind_result.
  destruct (m st) as [[[] st1|e st1|c st1|] log]; simpl in *.
  - rewrite (R I). destruct (Hk st1) as [P1 R1].
    split; [apply is_prefix_app; exact P1|].
    intros H. rewrite (R1 H). reflexivity.
  - rewrite app_nil_r. split; [apply is_prefix_shorter; exact P|intros []].
  - rewrite app_nil_r. split; [apply is_prefix_shorter; exact P|intros []].
  - rewrite app_nil_r. split; [apply is_prefix_shorter; exact P|intros []].
Qed.

Lemma follows_for_each {A : Type} (body : A -> M world unit)
      (expected : A -> list (event world)) (entries : list A) :
  (forall entry, In entry entries -> follows (body entry) (expected entry)) ->
  follows (for_each body entries) (flat_map expected entries).
Proof.
  induction entries as [|entry rest IH]; intros H.
  - apply follows_exactly. reflexivity.
  - simpl. apply follows_then.
    + apply H. left. reflexivity.
    + apply IH. intros e I. apply H. right. exact I.
Qed.

Lemma follows_tell (e : event world) : follows (tell e) [e].
Proof. apply follows_exactly. reflexivity. Qed.

Lemma follows_external (e : event world) (f : world -> world) :
  follows (external e f) [e].
Proof. apply follows_exactly. reflexivity. Qed.

Lemma follows_foreign (c : code world) : follows (foreign c) [].
Proof.
  apply follows_exactly. intros st. unfold foreign.
  destruct (c (mem st)); reflexivity.
Qed.

Lemma follows_call (f : funptr world) : follows (call f) [].
Proof. apply follows_exactly. intros st. apply call_log. Qed.

Lemma run_every_test_eq (suite : TestSuite world) (reporter : TestReporter world) :
  run_every_test suite reporter
  = (tell (ev_child_check suite) ;;
     foreign (specified_test_if_child suite reporter) ;;
     external (ev_start_suite suite (count_tests suite))
              (start_suite reporter (suite_name suite) (count_tests suite)) ;;
     for_each (every_entry suite reporter) (suite_tests suite) ;;
     send_reporter_completion_notification reporter ;;
     external (ev_finish_suite suite)
              (finish_suite reporter (suite_filename suite) (suite_line suite))).
Proof. destruct suite; reflexivity. Qed.

Lemma run_every_test_follows (reporter : TestReporter world) (suite : TestSuite world) :
  follows (run_every_test suite reporter) (outline suite).
Proof.
  induction suite as [n f l su td tests IH] using TestSuite_nested_ind.
  rewrite run_every_test_eq.
  set (suite := Suite n f l su td tests) in *.
  set (expected := fun entry : UnitTest world =>
                     match entry with
                     | test_function _ test => [ev_isolated suite test]
                     | test_suite _ nested =>
                         ev_suite_hook suite Setup (around_suite nested)
                           :: outline nested
                           ++ [ev_suite_hook suite Teardown (around_suite nested)]
                     end).
  change (outline suite)
    with ([ev_child_check suite]
            ++ []
            ++ [ev_start_suite suite (count_tests suite)]
            ++ flat_map expected tests
            ++ [ev_completion]
            ++ [ev_finish_suite suite]).
  apply follows_then; [apply follows_tell|].
  apply follows_then; [apply follows_foreign|].
  apply follows_then; [apply follows_external|].
  apply follows_then;
    [|apply follows_then; apply follows_external].
  apply follows_for_each. intros [en t|en c] In_tests.
  - change (expected (test_function en t)) with ([ev_isolated suite t] ++ []).
    apply follows_then; [apply follows_tell|apply follows_foreign].
  - change (expected (test_suite en c))
      with ([ev_suite_hook suite Setup (around_suite c)]
              ++ []
              ++ outline c
              ++ [ev_suite_hook suite Teardown (around_suite c)]
              ++ []).
    apply follows_then; [apply follows_tell|].
    apply follows_then; [apply follows_call|].
    apply follows_then; [apply (IH en c In_tests)|].
    apply follows_then; [apply follows_tell|apply follows_call].
Qed.






(* ------------------------------------------------------------------ *)
(** *** What the per-test sequence logs *)

Lemma try_catch_log (ph : phase) (spec : CgreenTest world) (body : M world unit)
      (st : state world) :
  exists tail,
    snd (try_catch ph spec body st) = snd (body st) ++ tail
    /\ (tail = []
        \/ exists message,
            tail = [ev_show_fail (test_filename spec) (test_line spec) message]).
Proof.
  unfold try_catch.
  destruct (body st) as [[[] st1|e st1|c st1|] log];
    try (exists []; split; [symmetry; apply app_nil_r|left; reflexivity]).
  destruct (caught e);
    [|exists []; split; [symmetry; apply app_nil_r|left; reflexivity]].
  destruct (context_reporter st);
    [|exists []; split; [symmetry; apply app_nil_r|left; reflexivity]].
  eexists. split; [reflexivity|right; eexists; reflexivity].
Qed.

Lemma Forall_wrapped (P : event world -> Prop) (ph : phase) (spec : CgreenTest world)
      (e : event world) (f : funptr world) (st : state world) :
  P e ->
  (forall message, P (ev_show_fail (test_filename spec) (test_line spec) message)) ->
  Forall P (snd (try_catch ph spec (tell e ;; call f) st)).
Proof.
  intros He Hfail.
  destruct (try_catch_log ph spec (tell e ;; call f) st) as (tail & -> & [->|[m ->]]);
    rewrite announced_call_log; repeat constructor; auto.
Qed.

Lemma setup_step_events (P : event world -> Prop)
      (suite : TestSuite world) (spec : CgreenTest world) (st : state world) :
  P (ev_suite_hook suite Setup (for_test spec)) ->
  P (ev_context_hook spec Setup) ->
  (forall message, P (ev_show_fail (test_filename spec) (test_line spec) message)) ->
  Forall P (snd (setup_step suite spec st)).
Proof.
  intros Hs Hc Hf. unfold setup_step. destruct (has_setup suite).
  - apply Forall_announced_call. exact Hs.
  - destruct (negb (is_NULL (context_setup (test_context spec)))); [|constructor].
    apply Forall_wrapped; assumption.
Qed.

Lemma teardown_step_events (P : event world -> Prop)
      (suite : TestSuite world) (spec : CgreenTest world) (st : state world) :
  P (ev_suite_hook suite Teardown (for_test spec)) ->
  P (ev_context_hook spec Teardown) ->
  (forall message, P (ev_show_fail (test_filename spec) (test_line spec) message)) ->
  Forall P (snd (teardown_step suite spec st)).
Proof.
  intros Hs Hc Hf. unfold teardown_step.
  destruct (negb (is_do_nothing (suite_teardown suite))).
  - apply Forall_announced_call. exact Hs.
  - destruct (negb (is_NULL (context_teardown (test_context spec)))); [|constructor].
    apply Forall_wrapped; assumption.
Qed.

Lemma after_the_timer_events (P : event world -> Prop)
      (suite : TestSuite world) (spec : CgreenTest world)
      (reporter : TestReporter world) (st : state world) :
  (forall ph, P (ev_suite_hook suite ph (for_test spec))) ->
  (forall ph, P (ev_context_hook spec ph)) ->
  P (ev_body spec) ->
  (forall message, P (ev_show_fail (test_filename spec) (test_line spec) message)) ->
  P ev_tally_mocks ->
  Forall P (snd ((setup_step suite spec ;;
                  run spec ;;
                  teardown_step suite spec ;;
                  external ev_tally_mocks (mocks_tallied reporter)) st)).
Proof.
  intros Hs Hc Hb Hf Ht.
  apply Forall_bind; [apply setup_step_events; auto|intros _ s1].
  apply Forall_bind; [apply Forall_wrapped; auto|intros _ s2].
  apply Forall_bind; [apply teardown_step_events; auto|intros _ s3].
  apply Forall_external. exact Ht.
Qed.

Lemma run_the_test_code_events
      (suite : TestSuite world) (spec : CgreenTest world)
      (reporter : TestReporter world) (st : state world) :
  Forall (per_test_event suite spec) (snd (run_the_test_code suite spec reporter st)).
Proof.
  unfold run_the_test_code.
  apply Forall_bind; [apply Forall_external; reflexivity|intros _ s1].
  apply Forall_bind; [apply Forall_external; exact I|intros _ s2].
  apply Forall_bind.
  { rewrite arm_the_timeout_eq.
    destruct (getenv _ (mem s2)) as [value|]; [|constructor].
    destruct (atoi value <=? 0); repeat constructor. }
  intros _ s3. apply after_the_timer_events; simpl; auto.
Qed.

(** X3: in the per-test sequence the reset of the precision and of the
    mocks comes first and the mock tally last, the body is called
    exactly once in between, every setup hook call lies before the body
    and every teardown hook call after it, and they are the hooks the
    precedence rule names. This holds whenever the sequence returns. *)
Theorem per_test_sequence_order
        (suite : TestSuite world) (spec : CgreenTest world)
        (reporter : TestReporter world) (st st' : state world)
        (log : list (event world)) :
  run_the_test_code suite spec reporter st = (Ret tt st', log) ->
  exists before after,
    log = ev_significant_figures 8 :: ev_clear_mocks
            :: before ++ ev_body spec :: after ++ [ev_tally_mocks]
    /\ filter test_level before = []
    /\ filter test_level after = []
    /\ hook_calls Setup before = at_most_one (resolve_hook suite spec Setup)
    /\ hook_calls Teardown before = []
    /\ hook_calls Setup after = []
    /\ hook_calls Teardown after = at_most_one (resolve_hook suite spec Teardown).
Proof.
  unfold run_the_test_code. intros H.
  apply bind_returns in H. destruct H as ([] & s1 & l1 & r1 & S1 & H & ->).
  apply bind_returns in H. destruct H as ([] & s2 & l2 & r2 & S2 & H & ->).
  apply bind_returns in H. destruct H as ([] & s3 & l3 & r3 & S3 & H & ->).
  apply bind_returns in H. destruct H as ([] & s4 & l4 & r4 & S4 & H & ->).
  apply bind_returns in H. destruct H as ([] & s5 & l5 & r5 & S5 & H & ->).
  apply bind_returns in H. destruct H as ([] & s6 & l6 & r6 & S6 & H & ->).
  pose proof (logged _ _ _ _ S1) as L1. pose proof (logged _ _ _ _ S2) as L2.
  pose proof (logged _ _ _ _ H) as L6.
  rewrite external_eq in L1, L2, L6. simpl in L1, L2, L6. subst l1 l2 r6.
  assert (B : exists tail, l5 = ev_body spec :: tail
                           /\ filter test_level tail = []
                           /\ (forall ph, hook_calls ph tail = [])).
  { apply logged in S5. unfold run in S5.
    destruct (try_catch_log Test spec (tell (ev_body spec) ;; call (test_run spec)) s4)
      as (tail & E & T).
    rewrite S5, announced_call_log in E. exists tail. split; [exact E|].
    destruct T as [->|[m ->]]; split; auto. }
  destruct B as (tail & -> & Btest & Bhooks).
  exists (l3 ++ l4), (tail ++ l6).
  pose proof (arm_the_timeout_test_level s2) as A1.
  pose proof (setup_step_test_level suite spec s3) as A2.
  pose proof (teardown_step_test_level suite spec s5) as A3.
  rewrite S3 in A1. rewrite S4 in A2. rewrite S6 in A3. simpl in A1, A2, A3.
  assert (Hooks : forall ph,
             hook_calls ph l3 = []
             /\ hook_calls ph l4
                = (if phase_eqb Setup ph
                   then at_most_one (resolve_hook suite spec Setup) else [])
             /\ hook_calls ph l6
                = (if phase_eqb Teardown ph
                   then at_most_one (resolve_hook suite spec Teardown) else [])).
  { intros ph.
    destruct (arm_the_timeout_hooks ph s2) as [_ R3].
    destruct (setup_step_hooks ph suite spec s3) as [_ R4].
    destruct (teardown_step_hooks ph suite spec s5) as [_ R6].
    rewrite S3 in R3. rewrite S4 in R4. rewrite S6 in R6.
    repeat apply conj; [apply R3|apply R4|apply R6]; exact I. }
  destruct (Hooks Setup) as (HS3 & HS4 & HS6).
  destruct (Hooks Teardown) as (HT3 & HT4 & HT6).
  simpl phase_eqb in HS4, HS6, HT4, HT6.
  repeat apply conj.
  - simpl. repeat rewrite <- app_assoc. reflexivity.
  - rewrite filter_app, A1, A2. reflexivity.
  - rewrite filter_app, Btest, A3. reflexivity.
  - rewrite hook_calls_app, HS3, HS4. reflexivity.
  - rewrite hook_calls_app, HT3, HT4. reflexivity.
  - rewrite hook_calls_app, Bhooks, HS6. reflexivity.
  - rewrite hook_calls_app, Bhooks, HT6. reflexivity.
Qed.

(** X4: the watchdog. When, after the reset of the precision and of the
    mocks, the timeout variable holds a value that parses to a positive
    number, the per-test sequence arms the watchdog with that number, as
    its third call, and never again, and prints no diagnostic; when the
    variable is absent it never arms the watchdog and prints nothing. *)
Theorem watchdog_is_armed_once
        (suite : TestSuite world) (spec : CgreenTest world)
        (reporter : TestReporter world) (st : state world) :
  (forall value,
      getenv CGREEN_PER_TEST_TIMEOUT_ENVIRONMENT_VARIABLE (mem (after_reset st))
      = Some value ->
      0 < atoi value ->
      exists rest,
        snd (run_the_test_code suite spec reporter st)
        = ev_significant_figures 8 :: ev_clear_mocks :: ev_die_in (atoi value) :: rest
        /\ Forall unarmed rest)
  /\ (getenv CGREEN_PER_TEST_TIMEOUT_ENVIRONMENT_VARIABLE (mem (after_reset st))
      = None ->
      Forall unarmed (snd (run_the_test_code suite spec reporter st))).
Proof.
  assert (E : forall K : M world unit,
             snd ((external (ev_significant_figures 8) (significant_figures 8) ;;
                   external ev_clear_mocks mocks_cleared ;;
                   arm_the_timeout ;; K) st)
             = ev_significant_figures 8 :: ev_clear_mocks
                 :: snd ((arm_the_timeout ;; K) (after_reset st))).
  { intros K.
    rewrite (bind_continues _ _ _ _ _ _ (external_eq _ _ st)).
    rewrite (bind_continues _ _ _ _ _ _ (external_eq _ _ _)).
    reflexivity. }
  assert (Q : forall s, Forall unarmed
                          (snd ((setup_step suite spec ;;
                                 run spec ;;
                                 teardown_step suite spec ;;
                                 external ev_tally_mocks (mocks_tallied reporter)) s))).
  { intros s. apply after_the_timer_events; simpl; auto. }
  unfold run_the_test_code. split.
  - intros value G N. rewrite E, bind_log, arm_the_timeout_eq, G.
    destruct (atoi value <=? 0) eqn:C; [lia|].
    simpl. eexists. split; [reflexivity|apply Q].
  - intros G. rewrite E, bind_log, arm_the_timeout_eq, G. simpl.
    repeat constructor. apply Q.
Qed.

(* ------------------------------------------------------------------ *)
(** *** What the wrappers let through *)

Lemma wrapper_call (ph : phase) (spec : CgreenTest world) (body : code world)
      (st : state world) :
  wrapped_pointer ph spec = function body ->
  (tell (wrapped_event ph spec) ;; call (wrapped_pointer ph spec)) st
  = (match body (mem st) with
     | returns w => Ret tt (with_mem st w)
     | throws e w => Thrown e (with_mem st w)
     | exits status w => Exited status (with_mem st w)
     end, [wrapped_event ph spec]).
Proof.
  intros ->. unfold bind, tell, call, foreign.
  destruct (body (mem st)); reflexivity.
Qed.

(** X5: what the handlers do not take leaves the wrapper. When the
    function a wrapper calls throws an object of a shape none of the five
    catch clauses matches, the wrapper reports nothing and the exception
    propagates: nothing that follows the wrapper (teardown, mock tally,
    the rest of the traversal) is run. The same holds when that function
    exits the process. *)
Theorem unhandled_exception_escapes
        (ph : phase) (spec : CgreenTest world) (st : state world)
        (body : code world) (w : world) :
  wrapped_pointer ph spec = function body ->
  (forall e,
      body (mem st) = throws e w ->
      caught e = None ->
      wrapper ph spec st = (Thrown e (with_mem st w), [wrapped_event ph spec])
      /\ forall next : M world unit,
          (wrapper ph spec ;; next) st
          = (Thrown e (with_mem st w), [wrapped_event ph spec]))
  /\ (forall status,
         body (mem st) = exits status w ->
         wrapper ph spec st = (Exited status (with_mem st w), [wrapped_event ph spec])
         /\ forall next : M world unit,
             (wrapper ph spec ;; next) st
             = (Exited status (with_mem st w), [wrapped_event ph spec])).
Proof.
  intros P. split.
  - intros e B C.
    assert (W : wrapper ph spec st
                = (Thrown e (with_mem st w), [wrapped_event ph spec])).
    { rewrite wrapper_eq. unfold try_catch.
      rewrite (wrapper_call ph spec body st P), B, C. reflexivity. }
    split; [exact W|]. intros next. unfold bind. rewrite W. reflexivity.
  - intros status B.
    assert (W : wrapper ph spec st
                = (Exited status (with_mem st w), [wrapped_event ph spec])).
    { rewrite wrapper_eq. unfold try_catch.
      rewrite (wrapper_call ph spec body st P), B. reflexivity. }
    split; [exact W|]. intros next. unfold bind. rewrite W. reflexivity.
Qed.

(** X6: a wrapper reports a failure only for an exception. When the
    function it calls returns, the wrapper returns with the memory that
    function left and without calling the failure callback; and whenever
    a failure report is in the log of a wrapper, the function it called
    threw one of the five shapes the handlers take, and the report is at
    the file and line of the test with the message made from the phase
    and the description of what was thrown. *)
Theorem report_only_for_an_exception
        (ph : phase) (spec : CgreenTest world) (st : state world) :
  (forall body w,
      wrapped_pointer ph spec = function body ->
      body (mem st) = returns w ->
      wrapper ph spec st = (Ret tt (with_mem st w), [wrapped_event ph spec]))
  /\ (forall filename line message,
         In (ev_show_fail filename line message) (snd (wrapper ph spec st)) ->
         exists body e w detail,
           wrapped_pointer ph spec = function body
           /\ body (mem st) = throws e w
           /\ caught e = Some detail
           /\ filename = test_filename spec
           /\ line = test_line spec
           /\ message = exception_message ph detail).
Proof.
  split.
  - intros body w P B. rewrite wrapper_eq. unfold try_catch.
    rewrite (wrapper_call ph spec body st P), B. reflexivity.
  - intros filename line message. rewrite wrapper_eq.
    assert (N : ~ In (ev_show_fail filename line message) [wrapped_event ph spec]).
    { intros [H|[]]. destruct ph; discriminate H. }
    destruct (wrapped_pointer ph spec) as [| |body] eqn:P.
    + unfold try_catch, bind, tell, call. simpl. intros H. destruct (N H).
    + unfold try_catch, bind, tell, call, ret. simpl. intros H. destruct (N H).
    + unfold try_catch.
      rewrite <- P, (wrapper_call ph spec body st P).
      destruct (body (mem st)) as [w|e w|status w] eqn:B;
        try (simpl; intros H; destruct (N H)).
      destruct (caught e) as [detail|] eqn:C; [|simpl; intros H; destruct (N H)].
      destruct (context_reporter st); [|simpl; intros H; destruct (N H)].
      simpl. intros [H|[H|[]]]; [destruct ph; discriminate H|].
      injection H as <- <- <-.
      exists body, e, w, detail. repeat apply conj; try reflexivity; assumption.
Qed.

(* ------------------------------------------------------------------ *)
(** *** The timeout variable *)

(** X7: fetching the timeout. When the variable is set,
    [per_test_timeout_value] returns what [atoi] makes of it and changes
    nothing; when it is not set, it never reaches [atoi]: it prints
    "attempt to fetch undefined value for CGREEN_PER_TEST_TIMEOUT" and
    exits with the failure status, and so does the validation when it is
    called with the variable unset. *)
Theorem timeout_value_is_fetched_or_fatal (st : state world) :
  let undefined :=
    ev_printf ("attempt to fetch undefined value for "
                 ++ CGREEN_PER_TEST_TIMEOUT_ENVIRONMENT_VARIABLE ++ newline)%string in
  match getenv CGREEN_PER_TEST_TIMEOUT_ENVIRONMENT_VARIABLE (mem st) with
  | Some value =>
      per_test_timeout_defined st = (Ret true st, [])
      /\ per_test_timeout_value st = (Ret (atoi value) st, [])
  | None =>
      per_test_timeout_defined st = (Ret false st, [])
      /\ per_test_timeout_value st = (Exited EXIT_FAILURE st, [undefined])
      /\ validate_per_test_timeout_value st = (Exited EXIT_FAILURE st, [undefined])
  end.
Proof.
  intros undefined. subst undefined.
  rewrite per_test_timeout_value_eq, validate_per_test_timeout_value_eq.
  unfold per_test_timeout_defined.
  destruct (getenv _ (mem st)); repeat apply conj; reflexivity.
Qed.

(* ------------------------------------------------------------------ *)
(** *** A named run for a name that is nowhere in the tree *)

Lemma named_entries_without_a_match (suite : TestSuite world) (name : string)
      (reporter : TestReporter world) (entries : list (UnitTest world)) :
  existsb (fun entry =>
             match entry with
             | test_function entry_name _ => String.eqb entry_name name
             | test_suite _ nested => has_test nested name
             end) entries = false ->
  forall st, for_each (named_entry suite name reporter) entries st = (Ret tt st, []).
Proof.
  induction entries as [|entry rest IH]; intros H st; [reflexivity|].
  simpl in H. apply orb_false_iff in H. destruct H as [H1 H2].
  simpl. rewrite bind_skips; [apply IH; exact H2|].
  destruct entry as [en t|en c]; simpl; rewrite H1; reflexivity.
Qed.

(** X8: a name that no test carries is not an error. When the target
    name is nowhere in the tree, the named traversal still starts and
    finishes the root suite, runs no test and calls no hook, and always
    returns; [run_single_test] then returns a status that depends only on
    the failures counter the reporter's suite callbacks leave (success
    when it is 0), provided the timeout check lets the run start. *)
Theorem unknown_name_runs_nothing
        (suite : TestSuite world) (name : string) (reporter : TestReporter world)
        (st : state world) :
  has_test suite name = false ->
  let quiet := [ev_start_suite suite (count_tests suite);
                ev_completion; ev_finish_suite suite] in
  let left_by (s : state world) :=
    with_mem s (finish_suite reporter (suite_filename suite) (suite_line suite)
                  (completion_notification reporter
                     (start_suite reporter (suite_name suite) (count_tests suite)
                                  (mem s)))) in
  run_named_test suite name reporter st = (Ret tt (left_by st), quiet)
  /\ (timeout_accepted (mem st) ->
      run_single_test suite name reporter st
      = (Ret (if failures reporter (mem (left_by (reporting reporter st))) =? 0
              then EXIT_SUCCESS else EXIT_FAILURE)
             (left_by (reporting reporter st)),
         ev_setup_reporting :: quiet)).
Proof.
  intros H quiet left_by.
  assert (N : forall s, run_named_test suite name reporter s = (Ret tt (left_by s), quiet)).
  { intros s. rewrite run_named_test_eq.
    unfold send_reporter_completion_notification.
    rewrite (bind_continues _ _ _ _ _ _ (external_eq _ _ s)).
    rewrite has_test_eq in H.
    rewrite (bind_continues _ _ _ _ _ _
               (named_entries_without_a_match suite name reporter _ H _)).
    rewrite (bind_continues _ _ _ _ _ _ (external_eq _ _ _)).
    rewrite external_eq. reflexivity. }
  split; [apply N|].
  intros T. apply run_single_test_completes; [exact T|apply N].
Qed.

(* ------------------------------------------------------------------ *)
(** *** A named run touches the matching tests only *)

Lemma all_matches_entry (suite : TestSuite world) (name entry_name : string)
      (test : CgreenTest world) :
  In (test_function entry_name test) (suite_tests suite) ->
  String.eqb entry_name name = true ->
  In test (all_matches suite name).
Proof.
  destruct suite as [n f l su td tests]. simpl. intros I E.
  apply in_flat_map. exists (test_function entry_name test).
  split; [exact I|]. rewrite E. left. reflexivity.
Qed.

Lemma all_matches_child (suite nested : TestSuite world) (name : string)
      (test : CgreenTest world) :
  child_of nested suite ->
  In test (all_matches nested name) ->
  In test (all_matches suite name).
Proof.
  destruct suite as [n f l su td tests]. simpl. intros [en I] H.
  apply in_flat_map. exists (test_suite en nested). split; assumption.
Qed.

Lemma per_test_event_named_only (root suite : TestSuite world) (name : string)
      (spec : CgreenTest world) (e : event world) :
  In spec (all_matches root name) ->
  per_test_event suite spec e -> named_only root name e.
Proof.
  intros I.
  destruct e as [| | | | | | | | | |owner ph [nested|test]| | | | | |];
    simpl; intros H; try (destruct H; fail); split; try reflexivity; try exact I.
  - destruct H as [_ ->]. exact I.
  - rewrite H. exact I.
  - rewrite H. exact I.
Qed.

Lemma named_only_from_child (root nested : TestSuite world) (name : string)
      (e : event world) :
  child_of nested root ->
  named_only nested name e -> named_only root name e.
Proof.
  intros C [H1 H2]. split; [exact H1|].
  destruct e as [| | | | | | | | | |owner ph [inner|test]| | | | | |];
    try exact I; apply (all_matches_child root nested name _ C); exact H2.
Qed.

Lemma run_named_test_named_only (name : string) (reporter : TestReporter world)
      (root : TestSuite world) :
  forall st, Forall (named_only root name) (snd (run_named_test root name reporter st)).
Proof.
  induction root as [n f l su td tests IH] using TestSuite_nested_ind.
  intros st. rewrite run_named_test_eq.
  unfold send_reporter_completion_notification.
  set (root := Suite n f l su td tests) in *.
  apply Forall_bind; [apply Forall_external; split; [reflexivity|exact I]|intros _ s1].
  apply Forall_bind;
    [|intros _ s2; apply Forall_bind;
      [apply Forall_external; split; [reflexivity|exact I]
      |intros _ s3; apply Forall_external; split; [reflexivity|exact I]]].
  apply Forall_for_each. simpl suite_tests.
  intros [en t|en c] In_tests s.
  - simpl. destruct (String.eqb en name) eqn:E; [|constructor].
    assert (M : In t (all_matches root name))
      by (apply (all_matches_entry root name en t); assumption).
    unfold run_test_in_the_current_process, send_reporter_completion_notification.
    apply Forall_bind; [apply Forall_external; split; [reflexivity|exact M]|intros _ q1].
    apply Forall_bind.
    { eapply Forall_impl; [|apply run_the_test_code_events].
      intros e. apply per_test_event_named_only. exact M. }
    intros _ q2.
    apply Forall_bind; [apply Forall_external; split; [reflexivity|exact I]|intros _ q3].
    apply Forall_external. split; [reflexivity|exact M].
  - simpl. destruct (has_test c name) eqn:T; [|constructor].
    assert (C : child_of c root) by (exists en; exact In_tests).
    apply Forall_bind; [repeat constructor|intros _ q1].
    apply Forall_bind; [rewrite call_log; constructor|intros _ q2].
    apply Forall_bind.
    { eapply Forall_impl; [|apply (IH en c In_tests)].
      intros e. apply named_only_from_child. exact C. }
    intros _ q3. apply Forall_announced_call. repeat constructor.
Qed.

(** X9: a named run stays in the calling process and touches only the
    tests that carry the target name. However [run_named_test] ends, its
    log holds no hand over of a test to another process and no child
    check, and every test that was started, run, finished, or had a hook
    called for it is a test entry carrying the target name. *)
Theorem named_run_touches_matches_only
        (root : TestSuite world) (name : string) (reporter : TestReporter world)
        (st : state world) :
  let log := snd (run_named_test root name reporter st) in
  Forall (fun e => in_isolation e = false) log
  /\ (forall test,
         In (ev_start_test test) log \/ In (ev_body test) log
         \/ In (ev_finish_test test) log
         \/ (exists ph, In (ev_context_hook test ph) log)
         \/ (exists owner ph, In (ev_suite_hook owner ph (for_test test)) log) ->
         In test (all_matches root name)).
Proof.
  intros log.
  pose proof (run_named_test_named_only name reporter root st) as A.
  fold log in A. split.
  - eapply Forall_impl; [|exact A]. intros e [H _]. exact H.
  - rewrite Forall_forall in A.
    intros test [H|[H|[H|[[ph H]|[owner [ph H]]]]]];
      exact (proj2 (A _ H)).
Qed.

(* ------------------------------------------------------------------ *)
(** *** No call through a null pointer *)


Lemma preserving_unchanged {A : Type} (r : option (TestReporter world))
      (m : M world A) :
  (forall st, match fst (m st) with
              | Ret _ st' | Thrown _ st' | Exited _ st' =>
                  context_reporter st' = context_reporter st
              | Crashed => False
              end) ->
  preserving r m.
Proof.
  intros H st E. specialize (H st).
  destruct (fst (m st)); simpl; congruence || exact H.
Qed.








Lemma preserving_timeout_check (r : option (TestReporter world)) :
  preserving r (defined <- per_test_timeout_defined ;;
                if defined then validate_per_test_timeout_value else ret tt).
Proof.
  apply preserving_unchanged. intros st.
  rewrite timeout_check_eq, validate_per_test_timeout_value_eq.
  destruct (getenv _ (mem st)) as [value|]; [|reflexivity].
  destruct (atoi value <=? 0); reflexivity.
Qed.










(* ------------------------------------------------------------------ *)
(** *** Completion notifications and finishes *)

Lemma filter_none {A : Type} (f : A -> bool) (l : list A) :
  Forall (fun x => f x = false) l -> filter f l = [].
Proof.
  induction 1 as [|x rest H _ IH]; [reflexivity|].
  simpl. rewrite H. exact IH.
Qed.

Lemma per_test_event_not_closing (suite : TestSuite world) (spec : CgreenTest world)
      (e : event world) :
  per_test_event suite spec e -> closing e = false.
Proof.
  destruct e as [| | | | | | | | | |owner ph [nested|test]| | | | | |];
    simpl; intros H; try reflexivity; destruct H.
Qed.

Lemma paired_nil : paired (@nil (event world)).
Proof. exists []. split; [constructor|reflexivity]. Qed.

Lemma paired_app (l1 l2 : list (event world)) :
  paired l1 -> paired l2 -> paired (l1 ++ l2).
Proof.
  intros (f1 & F1 & ->) (f2 & F2 & ->). exists (f1 ++ f2).
  split; [apply Forall_app; split; assumption|].
  symmetry. apply flat_map_app.
Qed.

Lemma paired_one (finish : event world) :
  is_finish finish -> paired [ev_completion; finish].
Proof.
  intros H. exists [finish]. split; [constructor; [exact H|constructor]|reflexivity].
Qed.

Lemma for_each_paired {A : Type} (body : A -> M world unit) (entries : list A) :
  (forall entry, In entry entries ->
                 forall st st' log, body entry st = (Ret tt st', log) ->
                                    paired (filter closing log)) ->
  forall st st' log,
    for_each body entries st = (Ret tt st', log) ->
    paired (filter closing log).
Proof.
  induction entries as [|entry rest IH]; intros Hbody st st' log H.
  - inversion H; subst. apply paired_nil.
  - simpl in H.
    apply bind_returns in H. destruct H as ([] & s1 & l1 & l2 & S1 & H & ->).
    rewrite filter_app. apply paired_app.
    + eapply Hbody; [left; reflexivity|exact S1].
    + eapply IH; [|exact H]. intros e I. apply Hbody. right. exact I.
Qed.

Lemma run_test_in_the_current_process_closing
      (suite : TestSuite world) (test : CgreenTest world)
      (reporter : TestReporter world) (st st' : state world)
      (log : list (event world)) :
  run_test_in_the_current_process suite test reporter st = (Ret tt st', log) ->
  filter closing log = [ev_completion; ev_finish_test test].
Proof.
  unfold run_test_in_the_current_process, send_reporter_completion_notification.
  intros H.
  apply bind_returns in H. destruct H as ([] & s1 & l1 & r1 & S1 & H & ->).
  apply bind_returns in H. destruct H as ([] & s2 & l2 & r2 & S2 & H & ->).
  apply bind_returns in H. destruct H as ([] & s3 & l3 & r3 & S3 & H & ->).
  pose proof (logged _ _ _ _ S1) as L1. pose proof (logged _ _ _ _ S3) as L3.
  pose proof (logged _ _ _ _ H) as L4. pose proof (logged _ _ _ _ S2) as L2.
  rewrite external_eq in L1, L3, L4. simpl in L1, L3, L4. subst l1 l3 r3.
  repeat rewrite filter_app.
  rewrite (filter_none closing l2).
  - reflexivity.
  - rewrite <- L2. eapply Forall_impl; [|apply run_the_test_code_events].
    intros e. apply per_test_event_not_closing.
Qed.

Lemma run_named_test_closing (name : string) (reporter : TestReporter world)
      (suite : TestSuite world) :
  forall st st' log,
    run_named_test suite name reporter st = (Ret tt st', log) ->
    paired (filter closing log).
Proof.
  induction suite as [n f l su td tests IH] using TestSuite_nested_ind.
  intros st st' log H. rewrite run_named_test_eq in H.
  unfold send_reporter_completion_notification in H.
  apply bind_returns in H. destruct H as ([] & s1 & l1 & r1 & S1 & H & ->).
  apply bind_returns in H. destruct H as ([] & s2 & l2 & r2 & S2 & H & ->).
  apply bind_returns in H. destruct H as ([] & s3 & l3 & r3 & S3 & H & ->).
  pose proof (logged _ _ _ _ S1) as L1. pose proof (logged _ _ _ _ S3) as L3.
  pose proof (logged _ _ _ _ H) as L4.
  rewrite external_eq in L1, L3, L4. simpl in L1, L3, L4. subst l1 l3 r3.
  simpl suite_tests in S2.
  change (paired (filter closing
                    ([ev_start_suite (Suite n f l su td tests)
                                     (count_tests (Suite n f l su td tests))]
                       ++ l2
                       ++ [ev_completion; ev_finish_suite (Suite n f l su td tests)]))).
  rewrite !filter_app. simpl. apply paired_app; [|apply paired_one; exact I].
  eapply for_each_paired; [|exact S2].
  intros [en t|en c] In_tests s s' lg E.
  - simpl in E. destruct (String.eqb en name).
    + rewrite (run_test_in_the_current_process_closing _ _ _ _ _ _ E).
      apply paired_one. exact I.
    + inversion E; subst. apply paired_nil.
  - destruct (has_test c name) eqn:T.
    + apply named_entry_suite_returns in E; [|exact T].
      destruct E as (q1 & q2 & inside & E & ->).
      simpl. rewrite filter_app. simpl. rewrite app_nil_r.
      exact (IH en c In_tests q1 q2 inside E).
    + simpl in E. rewrite T in E. inversion E; subst. apply paired_nil.
Qed.

Lemma outline_closing (suite : TestSuite world) :
  paired (filter closing (outline suite)).
Proof.
  induction suite as [n f l su td tests IH] using TestSuite_nested_ind.
  simpl. rewrite filter_app. simpl.
  apply paired_app; [|apply paired_one; exact I].
  generalize (Suite n f l su td tests). intros suite.
  induction tests as [|[en t|en c] rest IHrest]; [apply paired_nil| |].
  - simpl. apply IHrest. intros en' c' I. apply (IH en' c'). right. exact I.
  - simpl. rewrite !filter_app. simpl.
    apply paired_app; [apply paired_app|].
    + apply (IH en c). left. reflexivity.
    + apply paired_nil.
    + apply IHrest. intros en' c' I. apply (IH en' c'). right. exact I.
Qed.

(** X12: every finish has a completion notification of its own. In a
    traversal that returns, named or full, the completion notifications
    and the [finish_test] and [finish_suite] calls alternate: each finish
    comes right after one completion notification, and no completion
    notification is sent without the finish that follows it. *)
Theorem every_finish_follows_a_completion
        (suite : TestSuite world) (reporter : TestReporter world)
        (st st' : state world) (log : list (event world)) :
  (forall name,
      run_named_test suite name reporter st = (Ret tt st', log) ->
      paired (filter closing log))
  /\ (run_every_test suite reporter st = (Ret tt st', log) ->
      paired (filter closing log)).
Proof.
  split.
  - intros name H. exact (run_named_test_closing name reporter suite st st' log H).
  - intros H.
    destruct (run_every_test_follows reporter suite st) as [_ R].
    rewrite H in R. simpl in R. rewrite (R I). apply outline_closing.
Qed.

(* ------------------------------------------------------------------ *)
(** *** After an exception *)

Lemma bind_throws {A B : Type} (m : M world A) (k : A -> M world B)
      (st st1 : state world) (e : thrown) (log : list (event world)) :
  m st = (Thrown e st1, log) ->
  bind m k st = (Thrown e st1, log).
Proof. unfold bind. intros ->. reflexivity. Qed.

Lemma per_test_prefix (suite : TestSuite world) (spec : CgreenTest world)
      (reporter : TestReporter world) (st s2 s3 : state world)
      (l2 l3 : list (event world)) :
  arm_the_timeout (after_reset st) = (Ret tt s2, l2) ->
  setup_step suite spec s2 = (Ret tt s3, l3) ->
  run_the_test_code suite spec reporter st
  = (fst ((run spec ;;
           teardown_step suite spec ;;
           external ev_tally_mocks (mocks_tallied reporter)) s3),
     ev_significant_figures 8 :: ev_clear_mocks
       :: l2 ++ l3
       ++ snd ((run spec ;;
                teardown_step suite spec ;;
                external ev_tally_mocks (mocks_tallied reporter)) s3)).
Proof.
  intros A S. unfold run_the_test_code.
  rewrite (bind_continues _ _ _ _ _ _ (external_eq _ _ st)).
  rewrite (bind_continues _ _ _ _ _ _ (external_eq _ _ _)).
  change (with_mem (with_mem st (significant_figures 8 (mem st)))
            (mocks_cleared (mem (with_mem st (significant_figures 8 (mem st))))))
    with (after_reset st).
  rewrite (bind_continues _ _ _ _ _ _ A).
  rewrite (bind_continues _ _ _ _ _ _ S).
  reflexivity.
Qed.

Lemma teardown_step_hook_calls (suite : TestSuite world) (spec : CgreenTest world)
      (st : state world) :
  hook_calls Teardown (snd (teardown_step suite spec st))
  = at_most_one (resolve_hook suite spec Teardown).
Proof.
  unfold teardown_step, resolve_hook.
  destruct (negb (is_do_nothing (suite_teardown suite))).
  - rewrite announced_call_log. reflexivity.
  - destruct (negb (is_NULL (context_teardown (test_context spec)))); [|reflexivity].
    unfold run_teardown_for.
    rewrite try_catch_hook_calls, announced_call_log. reflexivity.
Qed.

(** X13: teardown is not skipped when the body throws what the handlers
    take. When the per-test sequence has reached the body and the body
    throws one of the five caught shapes, the sequence reports the
    failure and goes on with the teardown step and the mock tally from
    the memory the failure callback left; the teardown hook the
    precedence rule names is called all the same. *)
Theorem teardown_runs_after_a_caught_exception
        (suite : TestSuite world) (spec : CgreenTest world)
        (reporter current : TestReporter world) (st s2 s3 : state world)
        (l2 l3 : list (event world)) (body : code world) (e : thrown)
        (detail : string) (w : world) :
  arm_the_timeout (after_reset st) = (Ret tt s2, l2) ->
  setup_step suite spec s2 = (Ret tt s3, l3) ->
  context_reporter s3 = Some current ->
  test_run spec = function body ->
  body (mem s3) = throws e w ->
  caught e = Some detail ->
  let report := ev_show_fail (test_filename spec) (test_line spec)
                             (exception_message Test detail) in
  let s4 := with_mem s3 (show_fail current (test_filename spec) (test_line spec)
                                   (exception_message Test detail) w) in
  let rest := (teardown_step suite spec ;;
               external ev_tally_mocks (mocks_tallied reporter)) s4 in
  run_the_test_code suite spec reporter st
  = (fst rest,
     ev_significant_figures 8 :: ev_clear_mocks
       :: l2 ++ l3 ++ ev_body spec :: report :: snd rest)
  /\ hook_calls Teardown (snd (run_the_test_code suite spec reporter st))
     = at_most_one (resolve_hook suite spec Teardown).
Proof.
  intros A S R P B C report s4 rest.
  assert (W : run spec s3 = (Ret tt s4, [ev_body spec; report]))
    by exact (wrapper_reports Test spec current s3 body e detail w R P B C).
  assert (E : run_the_test_code suite spec reporter st
              = (fst rest,
                 ev_significant_figures 8 :: ev_clear_mocks
                   :: l2 ++ l3 ++ ev_body spec :: report :: snd rest)).
  { rewrite (per_test_prefix suite spec reporter st s2 s3 l2 l3 A S).
    rewrite (bind_continues _ _ _ _ _ _ W). reflexivity. }
  split; [exact E|].
  rewrite E. simpl snd.
  change (ev_significant_figures 8 :: ev_clear_mocks
            :: l2 ++ l3 ++ ev_body spec :: report :: snd rest)
    with ([ev_significant_figures 8; ev_clear_mocks]
            ++ l2 ++ l3 ++ [ev_body spec; report] ++ snd rest).
  rewrite !hook_calls_app.
  destruct (arm_the_timeout_hooks Teardown (after_reset st)) as [_ R2].
  destruct (setup_step_hooks Teardown suite spec s2) as [_ R3].
  rewrite A in R2. rewrite S in R3. simpl in R2, R3.
  rewrite (R2 I), (R3 I). simpl.
  subst rest. rewrite bind_log, hook_calls_app, teardown_step_hook_calls.
  destruct (fst (teardown_step suite spec s4)); simpl; apply app_nil_r.
Qed.

(** X14: the hooks of the suite are called outside the handlers. When
    the suite has a setup of its own and that setup throws, whatever the
    shape, the per-test sequence reports nothing and lets the exception
    through: the body, the teardown and the mock tally are not run. *)
Theorem suite_setup_exception_escapes
        (suite : TestSuite world) (spec : CgreenTest world)
        (reporter : TestReporter world) (st s2 : state world)
        (l2 : list (event world)) (body : code world) (e : thrown) (w : world) :
  arm_the_timeout (after_reset st) = (Ret tt s2, l2) ->
  suite_setup suite = function body ->
  body (mem s2) = throws e w ->
  run_the_test_code suite spec reporter st
  = (Thrown e (with_mem s2 w),
     ev_significant_figures 8 :: ev_clear_mocks
       :: l2 ++ [ev_suite_hook suite Setup (for_test spec)]).
Proof.
  intros A P B. unfold run_the_test_code.
  rewrite (bind_continues _ _ _ _ _ _ (external_eq _ _ st)).
  rewrite (bind_continues _ _ _ _ _ _ (external_eq _ _ _)).
  change (with_mem (with_mem st (significant_figures 8 (mem st)))
            (mocks_cleared (mem (with_mem st (significant_figures 8 (mem st))))))
    with (after_reset st).
  rewrite (bind_continues _ _ _ _ _ _ A).
  assert (S : setup_step suite spec s2
              = (Thrown e (with_mem s2 w), [ev_suite_hook suite Setup (for_test spec)])).
  { unfold setup_step, has_setup. rewrite P. simpl.
    unfold bind, tell, foreign. rewrite B. reflexivity. }
  rewrite (bind_throws _ _ _ _ _ _ S). reflexivity.
Qed.

End RunnerLemmas.

(* ================================================================== *)
(** ** The theorems at work on the sample suites *)

Module Worked.
Import Sample.

Lemma full_run_status_witness :
  let out := run_test_suite (platform := plain) outer counting_reporter (fresh clean) in
  (exists status, out = (Ret status (registered clean), snd out))
  /\ fst out = Ret EXIT_SUCCESS (registered clean)
  /\ failures counting_reporter clean = 0
  /\ exceptions counting_reporter clean = 0.
Proof.
  intros out.
  pose proof (full_run_status (platform := plain) outer counting_reporter (fresh clean))
    as (Completes & Returns & _).
  split; [|split].
  - apply (Completes (registered clean)); [exact I|reflexivity].
  - reflexivity.
  - apply (Returns EXIT_SUCCESS (registered clean) (snd out) eq_refl).
    reflexivity.
Defined.

Lemma named_run_status_witness :
  let out := run_single_test (platform := plain) outer "once" counting_reporter
                             (fresh one_exception) in
  (exists status, out = (Ret status (registered one_exception), snd out))
  /\ fst out = Ret EXIT_SUCCESS (registered one_exception)
  /\ failures counting_reporter one_exception = 0
  /\ exceptions counting_reporter one_exception = 1.
Proof.
  intros out.
  pose proof (named_run_status (platform := plain) outer "once" counting_reporter
                               (fresh one_exception))
    as (Completes & Returns).
  split; [|split; [|split]].
  - apply (Completes (registered one_exception)); [exact I|reflexivity].
  - reflexivity.
  - apply (Returns EXIT_SUCCESS (registered one_exception) (snd out) eq_refl).
    reflexivity.
  - reflexivity.
Defined.

Lemma invalid_timeout_aborts_witness :
  run_test_suite (platform := plain) outer counting_reporter (fresh (with_timeout "-5"))
  = (Exited EXIT_FAILURE (fresh (with_timeout "-5")),
     [ev_printf ("invalid value for CGREEN_PER_TEST_TIMEOUT environment variable: -5"
                   ++ newline)%string]).
Proof.
  apply (invalid_timeout_aborts (platform := plain) outer "once" first
                                counting_reporter (fresh (with_timeout "-5")) "-5").
  - reflexivity.
  - vm_compute. discriminate.
Defined.

Lemma caught_exception_is_reported_witness :
  run explodes (registered clean)
  = (Ret tt (with_mem (registered clean)
                      (show_fail counting_reporter "tests.c" 40
                                 "an exception was thrown during test: [boom]" clean)),
     [ev_body explodes;
      ev_show_fail "tests.c" 40 "an exception was thrown during test: [boom]"]).
Proof.
  apply (caught_exception_is_reported
           Test explodes counting_reporter (registered clean)
           (throws (std_exception_object "boom")) (std_exception_object "boom")
           "boom" clean);
    reflexivity.
Defined.

(** C2, as stated, fails twice. A description longer than the buffer is
    cut, so the message reported is not the full text. And a setup
    taken from the suite is called outside any handler: what it throws
    leaves the per-test sequence and ends the traversal without a
    report. *)
Lemma exception_report_counterexample :
  ~ In (ev_show_fail "tests.c" 50 (claimed_message Test long_text))
       (snd (run verbose (registered clean)))
  /\ run_the_test_code (platform := plain) legacy hooked counting_reporter
                       (registered clean)
     = (Thrown (c_string "boom") (registered clean),
        [ev_significant_figures 8; ev_clear_mocks;
         ev_suite_hook legacy Setup (for_test hooked)])
  /\ fst (run_single_test (platform := plain) legacy "hooked" counting_reporter
                          (fresh clean))
     = Thrown (c_string "boom") (registered clean).
Proof.
  split; [|split; reflexivity].
  intros [H|[H|[]]]; [discriminate H|].
  injection H as E.
  apply (f_equal String.length) in E.
  vm_compute in E. discriminate E.
Qed.

Lemma caught_exception_calls_show_fail_once_witness :
  exists st' log message,
    run explodes (registered clean) = (Ret tt st', log)
    /\ filter is_show_fail log = [ev_show_fail "tests.c" 40 message]
    /\ mem st' = show_fail counting_reporter "tests.c" 40 message clean.
Proof.
  destruct (caught_exception_calls_show_fail_once
              Test explodes counting_reporter (registered clean)
              (throws (std_exception_object "boom")) (std_exception_object "boom")
              "boom" clean eq_refl eq_refl eq_refl eq_refl)
    as (st' & log & message & W & F & E & _).
  exists st', log, message. repeat apply conj; assumption.
Defined.

(** C7, as stated, fails: the body of the test throws, the reporter
    counts one failure for the call of its failure callback, and the
    exceptions counter is still 0, in the wrapper and at the end of the
    named run. *)
Lemma exception_counter_counterexample :
  (exists st',
      run explodes (registered clean)
      = (Ret tt st',
         [ev_body explodes;
          ev_show_fail "tests.c" 40 "an exception was thrown during test: [boom]"])
      /\ failures counting_reporter (mem st') = 1
      /\ exceptions counting_reporter (mem st') = 0)
  /\ (exists st' log,
         run_single_test (platform := plain) exploding "explodes" counting_reporter
                         (fresh clean)
         = (Ret EXIT_FAILURE st', log)
         /\ failures counting_reporter (mem st') = 1
         /\ exceptions counting_reporter (mem st') = 0).
Proof.
  split.
  - eexists. repeat apply conj; reflexivity.
  - do 2 eexists. repeat apply conj; reflexivity.
Qed.

(** The precedence rule on the samples: a suite with hooks of its own
    shadows the hooks of the test's context; without them the context's
    hooks run; with neither, nothing is called. *)
Example precedence_on_the_samples :
  let log_of suite spec :=
    snd (run_the_test_code (platform := plain) suite spec counting_reporter
                           (registered clean)) in
  hook_calls Setup (log_of legacy_quiet hooked) = [from_suite]
  /\ hook_calls Teardown (log_of legacy_quiet hooked) = [from_suite]
  /\ hook_calls Setup (log_of duplicates hooked) = [from_context]
  /\ hook_calls Teardown (log_of duplicates hooked) = [from_context]
  /\ hook_calls Setup (log_of duplicates first) = []
  /\ hook_calls Teardown (log_of duplicates first) = [].
Proof. repeat apply conj; reflexivity. Qed.

Lemma null_hooks_are_never_called_witness :
  setup_step duplicates first (registered clean) = (Ret tt (registered clean), [])
  /\ teardown_step duplicates first (registered clean) = (Ret tt (registered clean), []).
Proof.
  pose proof (null_hooks_are_never_called (platform := plain) duplicates first
                                          counting_reporter (registered clean))
    as [S T].
  split.
  - exact (proj1 (S eq_refl eq_refl)).
  - exact (proj1 (T eq_refl eq_refl)).
Defined.

Lemma suites_without_a_match_are_skipped_witness :
  let out := run_named_test (platform := plain) outer "once" counting_reporter
                            (registered clean) in
  bracketed (platform := plain) outer inner_match "once" counting_reporter (snd out)
  /\ (forall count, ~ In (ev_start_suite inner_other count) (snd out))
  /\ fst (run_named_test (platform := plain) tracked_outer "once" counting_reporter
                         (registered clean))
     = Ret tt (registered (counts 110 0)).
Proof.
  intros out.
  pose proof (suites_without_a_match_are_skipped
                (platform := plain) outer "once" counting_reporter (registered clean))
    as (Only & _ & _ & Visited & _).
  pose proof (suites_without_a_match_are_skipped
                (platform := plain) tracked_outer "once" counting_reporter
                (registered clean))
    as (_ & _ & _ & _ & On_state & _).
  repeat apply conj.
  - apply (Visited I outer inner_match).
    + left. reflexivity.
    + exists "inner_match". right. left. reflexivity.
    + reflexivity.
  - intros count H. destruct (Only _ _ H) as [E|[_ E]]; discriminate E.
  - rewrite On_state. reflexivity.
Defined.

Lemma every_match_is_run_witness :
  filter test_level
         (snd (run_named_test (platform := plain) duplicates "twice" counting_reporter
                              (registered clean)))
  = reported_run first ++ reported_run second
  /\ fst (run_named_test (platform := plain) counted_duplicates "twice"
                         counting_reporter (registered clean))
     = Ret tt (registered (counts 2 0)).
Proof.
  pose proof (every_match_is_run (platform := plain) duplicates "twice"
                                 counting_reporter (registered clean))
    as (_ & _ & _ & On_log).
  pose proof (every_match_is_run (platform := plain) counted_duplicates "twice"
                                 counting_reporter (registered clean))
    as (_ & In_turn & _).
  split.
  - exact (On_log (registered clean) _ eq_refl).
  - rewrite (In_turn eq_refl). reflexivity.
Defined.

Lemma one_hook_source_per_phase_witness :
  fst (run_the_test_code (platform := plain) tracked_flat tracked_test
                         counting_reporter (registered clean))
  = Ret tt (registered (counts 110 0))
  /\ fst (run_the_test_code (platform := plain) duplicates tracked_test
                            counting_reporter (registered clean))
     = Ret tt (registered (counts 0 11)).
Proof.
  pose proof (one_hook_source_per_phase (platform := plain) tracked_flat tracked_test
                                        counting_reporter (registered clean))
    as (_ & _ & _ & _ & _ & Suite_hooks & _).
  pose proof (one_hook_source_per_phase (platform := plain) duplicates tracked_test
                                        counting_reporter (registered clean))
    as (_ & _ & _ & _ & _ & Context_hooks & _).
  split.
  - rewrite Suite_hooks. reflexivity.
  - rewrite Context_hooks. reflexivity.
Defined.

End Worked.


(* ================================================================== *)
(** ** The further properties at work on the sample suites *)

Module Further.
Import Sample.



Lemma per_test_sequence_order_witness :
  let log := snd (run_the_test_code (platform := plain) legacy_quiet hooked
                                    counting_reporter (registered clean)) in
  exists before after,
    log = ev_significant_figures 8 :: ev_clear_mocks
            :: before ++ ev_body hooked :: after ++ [ev_tally_mocks]
    /\ hook_calls Setup before = [from_suite]
    /\ hook_calls Teardown after = [from_suite].
Proof.
  intros log.
  destruct (per_test_sequence_order (platform := plain) legacy_quiet hooked
                                    counting_reporter (registered clean)
                                    (registered clean) log eq_refl)
    as (before & after & E & _ & _ & S & _ & _ & T).
  exists before, after. repeat apply conj; assumption.
Defined.

Lemma watchdog_is_armed_once_witness :
  exists rest,
    snd (run_the_test_code (platform := plain) duplicates first counting_reporter
                           (registered (with_timeout "30")))
    = ev_significant_figures 8 :: ev_clear_mocks :: ev_die_in 30 :: rest
    /\ Forall unarmed rest.
Proof.
  exact (proj1 (watchdog_is_armed_once (platform := plain) duplicates first
                                       counting_reporter
                                       (registered (with_timeout "30")))
               "30" eq_refl eq_refl).
Defined.

Lemma unhandled_exception_escapes_witness :
  run alien (registered clean)
  = (Thrown (other_object 42) (registered clean), [ev_body alien]).
Proof.
  exact (proj1 (proj1 (unhandled_exception_escapes
                         Test alien (registered clean)
                         (throws (other_object 42)) clean eq_refl)
                      (other_object 42) eq_refl eq_refl)).
Defined.

Lemma report_only_for_an_exception_witness :
  run first (registered clean) = (Ret tt (registered clean), [ev_body first]).
Proof.
  exact (proj1 (report_only_for_an_exception Test first (registered clean))
               returns clean eq_refl eq_refl).
Defined.

Lemma unknown_name_runs_nothing_witness :
  run_named_test (platform := plain) outer "absent" counting_reporter (registered clean)
  = (Ret tt (registered clean),
     [ev_start_suite outer 2; ev_completion; ev_finish_suite outer]).
Proof.
  exact (proj1 (unknown_name_runs_nothing (platform := plain) outer "absent"
                                          counting_reporter (registered clean)
                                          eq_refl)).
Defined.



Lemma every_finish_follows_a_completion_witness :
  paired (filter closing
                 (snd (run_named_test (platform := plain) root_of_all "once"
                                      counting_reporter (registered clean)))).
Proof.
  exact (proj1 (every_finish_follows_a_completion
                  (platform := plain) root_of_all counting_reporter
                  (registered clean) (registered clean)
                  (snd (run_named_test (platform := plain) root_of_all "once"
                                       counting_reporter (registered clean))))
               "once" eq_refl).
Defined.

Lemma teardown_runs_after_a_caught_exception_witness :
  hook_calls Teardown
             (snd (run_the_test_code (platform := plain) duplicates explodes_hooked
                                     counting_reporter (registered clean)))
  = [from_context].
Proof.
  destruct (teardown_runs_after_a_caught_exception
              (platform := plain) duplicates explodes_hooked
              counting_reporter counting_reporter
              (registered clean) (registered clean) (registered clean)
              [] [ev_context_hook explodes_hooked Setup]
              (throws (std_exception_object "boom")) (std_exception_object "boom")
              "boom" clean eq_refl eq_refl eq_refl eq_refl eq_refl eq_refl)
    as [_ T].
  exact T.
Defined.

Lemma suite_setup_exception_escapes_witness :
  run_the_test_code (platform := plain) legacy hooked counting_reporter
                    (registered clean)
  = (Thrown (c_string "boom") (registered clean),
     [ev_significant_figures 8; ev_clear_mocks;
      ev_suite_hook legacy Setup (for_test hooked)]).
Proof.
  exact (suite_setup_exception_escapes
           (platform := plain) legacy hooked counting_reporter
           (registered clean) (registered clean) []
           (throws (c_string "boom")) (c_string "boom") clean
           eq_refl eq_refl eq_refl).
Defined.

End Further.
